(** * modcore clipboard: vault encryption and session management

    A shallow embedding of the background script ([addToPending]), the popup
    script ([CryptoCore], [State], the authentication, snippet and reset
    handlers) and the content script (the [copy] listener), followed by the
    properties of the vault core.

    Conventions of the embedding.
    - A JavaScript string is a [string]: a sequence of code units below 256.
    - A [Uint8Array] is a [list byte]; a JavaScript array of numbers, as kept
      in [chrome.storage.local], is a [list Z].
    - WebCrypto, [TextEncoder]/[TextDecoder] and [JSON] are the platform's,
      not the repository's: they are the operations of the class
      [WebPlatform], about which nothing is assumed unless a theorem says so.
    - Randomness, the clock and the success of a storage write come from an
      [Oracle] that is read through a counter kept in the [World].
    - An [async] function is run to completion: handlers do not interleave.
    - A write to [chrome.storage.local] either happens as a whole or rejects
      and leaves the storage as it was; reads do not fail. *)

From Stdlib Require Import String Ascii Strings.Byte List ZArith Bool Arith Lia.
From Stdlib Require Import DecimalString.
Import ListNotations.
Open Scope string_scope.

(** ** Data *)

Definition bytes := list byte.

(** A [CryptoKey] is opaque to scripts; it is modelled by its raw key bits. *)
Definition CryptoKey := bytes.

Module Snippet.
Inductive kind := text | image.
(** [metaText] is [null] for a text snippet saved from the editor, a caption
    for an image, and not there at all for an auto-saved clip. *)
Inductive meta := absent | null | caption (s : string).
Record t := mk {
    id : string;
    type : kind;
    content : string;
    metaText : meta;
    tags : list string;
    date : Z
  }.
End Snippet.

Module PendingClip.
Record t := mk { content : string; timestamp : Z }.
End PendingClip.

Definition Collection := list Snippet.t.

(** What a field of the stored envelope may hold (numbers are integers, and
    so are the elements of an array), and the envelope itself as [decrypt]
    receives it ([EnvUndefined]: nothing stored under the key). *)
Inductive JsField :=
| FUndefined
| FNull
| FNumber (n : Z)
| FArray (xs : list Z).

Inductive JsEnvelope :=
| EnvUndefined
| EnvNull
| EnvObject (iv content : JsField).

Inductive JsError :=
| TypeError
| RangeError
| OperationError
| SyntaxError
| StorageError
| Error (message : string).

Inductive Completion (A : Type) :=
| Normal (a : A)
| Throw (e : JsError).
Arguments Normal {A} a.
Arguments Throw {A} e.

(** ** The platform *)

Class WebPlatform := {
  PBKDF2 : string -> Z -> bytes -> bytes -> Z -> CryptoKey;
  AES_GCM_encrypt : CryptoKey -> bytes -> bytes -> bytes;
  AES_GCM_decrypt : CryptoKey -> bytes -> bytes -> option bytes;
  TextEncoder_encode : string -> bytes;
  TextDecoder_decode : bytes -> string;
  JSON_stringify : Collection -> string;
  JSON_parse : string -> option Collection
}.

Record Oracle := {
  random_byte : nat -> nat -> byte;
  randomUUID_at : nat -> string;
  Date_now_at : nat -> Z;
  storage_write_ok : nat -> bool
}.

(** ** chrome.storage.local, the popup's [State], and the world *)

Module Storage.
Record t := mk {
    salt : option (list Z);
    encryptedData : JsEnvelope;
    pendingClips : option (list PendingClip.t);
    monitoring : option bool
  }.
Definition empty : t := mk None EnvUndefined None None.
End Storage.

Module State.
Record t := mk {
    key : option CryptoKey;
    snippets : Collection;
    pendingEditId : option string;
    currentImageData : option string
  }.
Definition initial : t := mk None [] None None.
Definition with_key (k : option CryptoKey) (s : t) : t :=
    mk k (snippets s) (pendingEditId s) (currentImageData s).
Definition with_snippets (c : Collection) (s : t) : t :=
    mk (key s) c (pendingEditId s) (currentImageData s).
End State.

Inductive View := auth | onboarding | dashboard.

Inductive ToastText :=
| Msg (s : string)
| MsgOfError (prefix : string) (e : JsError).

Inductive Event :=
| EvDeriveKey (pin : string) (saltBytes : bytes)
| EvShowView (v : View)
| EvToast (msg : ToastText) (type : string)
| EvSetLoading (isLoading : bool)
| EvRenderSnippets
| EvConsoleError (e : JsError)
| EvDom (what : string)
| EvSendMessage (action content : string)
| EvReload.

Record World := mkWorld {
  state : State.t;
  storage : Storage.t;
  log : list Event;
  oracle : Oracle;
  tick : nat
}.

Definition with_state (s : State.t) (w : World) : World :=
  mkWorld s (storage w) (log w) (oracle w) (tick w).
Definition with_storage (st : Storage.t) (w : World) : World :=
  mkWorld (state w) st (log w) (oracle w) (tick w).
Definition with_log (l : list Event) (w : World) : World :=
  mkWorld (state w) (storage w) l (oracle w) (tick w).
Definition with_tick (n : nat) (w : World) : World :=
  mkWorld (state w) (storage w) (log w) (oracle w) n.

(** ** The monad of scripts: a world passed along, and exceptions *)

Definition M (A : Type) := World -> Completion A * World.

Definition ret {A} (a : A) : M A := fun w => (Normal a, w).

Definition bind {A B} (m : M A) (k : A -> M B) : M B :=
  fun w =>
    match m w with
    | (Normal a, w') => k a w'
    | (Throw e, w') => (Throw e, w')
    end.

Definition throw {A} (e : JsError) : M A := fun w => (Throw e, w).

Definition lift {A} (c : Completion A) : M A := fun w => (c, w).

Declare Scope script_scope.
Delimit Scope script_scope with script.
Notation "x <- m ;; k" := (bind m (fun x => k))
  (at level 100, m at next level, right associativity) : script_scope.
Notation "m ;; k" := (bind m (fun _ => k))
  (at level 100, right associativity) : script_scope.
Open Scope script_scope.

(** [try { body } catch (e) { handler e }] *)
Definition try_catch {A} (body : M A) (handler : JsError -> M A) : M A :=
  fun w =>
    match body w with
    | (Normal a, w') => (Normal a, w')
    | (Throw e, w') => handler e w'
    end.

(** [try { body } finally { fin }] *)
Definition try_finally {A} (body : M A) (fin : M unit) : M A :=
  fun w =>
    match body w with
    | (r, w') =>
        match fin w' with
        | (Normal _, w'') => (r, w'')
        | (Throw e, w'') => (Throw e, w'')
        end
    end.

Definition exec {A} (m : M A) (w : World) : World := snd (m w).
Definition result {A} (m : M A) (w : World) : Completion A := fst (m w).

Definition emit (e : Event) : M unit :=
  fun w => (Normal tt, with_log (log w ++ [e])%list w).

Definition getState : M State.t := fun w => (Normal (state w), w).
Definition modifyState (f : State.t -> State.t) : M unit :=
  fun w => (Normal tt, with_state (f (state w)) w).

(** One draw from the oracle advances the counter. *)
Definition draw : M nat := fun w => (Normal (tick w), with_tick (S (tick w)) w).
Definition getOracle : M Oracle := fun w => (Normal (oracle w), w).

Definition getRandomValues (len : nat) : M bytes :=
  t <- draw ;;
  o <- getOracle ;;
  ret (map (random_byte o t) (seq 0 len)).

Definition crypto_randomUUID : M string :=
  t <- draw ;;
  o <- getOracle ;;
  ret (randomUUID_at o t).

Definition Date_now : M Z :=
  t <- draw ;;
  o <- getOracle ;;
  ret (Date_now_at o t).

(** *** chrome.storage.local *)

Definition chrome_storage_local_get : M Storage.t :=
  fun w => (Normal (storage w), w).

Definition storage_write (f : Storage.t -> Storage.t) : M unit :=
  t <- draw ;;
  o <- getOracle ;;
  if storage_write_ok o t
  then fun w => (Normal tt, with_storage (f (storage w)) w)
  else throw StorageError.

(** [set({ salt: s, encryptedData: e })]: one call, both keys. *)
Definition chrome_storage_local_set_salt_encryptedData
    (s : list Z) (e : JsEnvelope) : M unit :=
  storage_write (fun st =>
    Storage.mk (Some s) e (Storage.pendingClips st) (Storage.monitoring st)).

Definition chrome_storage_local_set_encryptedData (e : JsEnvelope) : M unit :=
  storage_write (fun st =>
    Storage.mk (Storage.salt st) e (Storage.pendingClips st) (Storage.monitoring st)).

Definition chrome_storage_local_set_pendingClips
    (l : list PendingClip.t) : M unit :=
  storage_write (fun st =>
    Storage.mk (Storage.salt st) (Storage.encryptedData st) (Some l)
      (Storage.monitoring st)).

Definition chrome_storage_local_set_monitoring (b : bool) : M unit :=
  storage_write (fun st =>
    Storage.mk (Storage.salt st) (Storage.encryptedData st)
      (Storage.pendingClips st) (Some b)).

Definition chrome_storage_local_remove_pendingClips : M unit :=
  storage_write (fun st =>
    Storage.mk (Storage.salt st) (Storage.encryptedData st) None
      (Storage.monitoring st)).

Definition chrome_storage_local_clear : M unit :=
  storage_write (fun _ => Storage.empty).

(** *** Typed arrays *)

Definition ToUint8 (z : Z) : byte :=
  match Byte.of_N (Z.to_N (z mod 256)) with
  | Some b => b
  | None => x00
  end.

(** [Array.from(u)] for a [Uint8Array] [u]. *)
Definition Array_from (u : bytes) : list Z :=
  map (fun b => Z.of_N (Byte.to_N b)) u.

Definition Uint8Array_of_array (xs : list Z) : bytes := map ToUint8 xs.

(** [new Uint8Array(v)]: an array is converted element by element; anything
    else is a length (ToIndex), [undefined] and [null] counting as 0, and a
    length outside 0 .. 2^53 - 1 is a RangeError. Allocating the array is
    taken to succeed. *)
Definition new_Uint8Array (v : JsField) : Completion bytes :=
  match v with
  | FUndefined => Normal []
  | FNull => Normal []
  | FNumber n =>
      if ((n <? 0) || (2 ^ 53 - 1 <? n))%Z then Throw RangeError
      else Normal (repeat x00 (Z.to_nat n))
  | FArray xs => Normal (Uint8Array_of_array xs)
  end.

(** [o.iv] and [o.content]: reading a property of [undefined] or [null]
    is a TypeError. *)
Definition get_iv (o : JsEnvelope) : Completion JsField :=
  match o with
  | EnvUndefined => Throw TypeError
  | EnvNull => Throw TypeError
  | EnvObject iv _ => Normal iv
  end.

Definition get_content (o : JsEnvelope) : Completion JsField :=
  match o with
  | EnvUndefined => Throw TypeError
  | EnvNull => Throw TypeError
  | EnvObject _ content => Normal content
  end.

(** ** background script *)

Definition addToPending (content : string) : M unit :=
  st <- chrome_storage_local_get ;;
  let list := match Storage.pendingClips st with Some l => l | None => [] end in
  if match list with
     | head :: _ => PendingClip.content head =? content
     | [] => false
     end
  then ret tt
  else
    now <- Date_now ;;
    let list := PendingClip.mk content now :: list in
    let list := if (20 <? length list)%nat then removelast list else list in
    chrome_storage_local_set_pendingClips list.

(** [chrome.runtime.onMessage] listener. *)
Definition onMessage (action content : string) : M unit :=
  if (action =? "autoSave") && negb (content =? "")
  then addToPending content
  else ret tt.

(** [chrome.contextMenus.onClicked] listener. *)
Definition onClicked (menuItemId selectionText : string) : M unit :=
  if (menuItemId =? "save-secure") && negb (selectionText =? "")
  then addToPending selectionText
  else ret tt.

(** ** popup script: CryptoCore *)

Module CryptoCore.

Module config.
Definition pbkdf2_hash : string := "SHA-256".
Definition pbkdf2_iterations : Z := 200000.
Definition algo_length : Z := 256.
Definition saltLen : nat := 16.
End config.

Definition generateSalt : M bytes := getRandomValues config.saltLen.

(** [importKey] of the encoded PIN, then [subtle.deriveKey] with the
    configured parameters and the salt. *)
Definition subtle_deriveKey {platform : WebPlatform} (pin : string) (salt : bytes)
    : CryptoKey :=
  PBKDF2 config.pbkdf2_hash config.pbkdf2_iterations salt
    (TextEncoder_encode pin) config.algo_length.

(** Every call is recorded in the log. *)
Definition deriveKey {platform : WebPlatform} (pin : string) (salt : bytes) : M CryptoKey :=
  emit (EvDeriveKey pin salt) ;;
  ret (subtle_deriveKey pin salt).

(** What [encrypt] returns once the IV is drawn. *)
Definition envelope_of {platform : WebPlatform} (iv : bytes) (data : Collection)
    (key : CryptoKey) : JsEnvelope :=
  let encodedData := TextEncoder_encode (JSON_stringify data) in
  let encryptedContent := AES_GCM_encrypt key iv encodedData in
  EnvObject (FArray (Array_from iv)) (FArray (Array_from encryptedContent)).

Definition encrypt {platform : WebPlatform} (data : Collection) (key : CryptoKey)
    : M JsEnvelope :=
  iv <- getRandomValues 12 ;;
  ret (envelope_of iv data key).

Definition decrypt {platform : WebPlatform} (encryptedObj : JsEnvelope) (key : CryptoKey)
    : M Collection :=
  ivField <- lift (get_iv encryptedObj) ;;
  iv <- lift (new_Uint8Array ivField) ;;
  contentField <- lift (get_content encryptedObj) ;;
  data <- lift (new_Uint8Array contentField) ;;
  try_catch
    (match AES_GCM_decrypt key iv data with
     | None => throw OperationError
     | Some decryptedContent =>
         match JSON_parse (TextDecoder_decode decryptedContent) with
         | None => throw SyntaxError
         | Some v => ret v
         end
     end)
    (fun _ => throw (Error "Decryption failed. Invalid PIN or corrupted data.")).

End CryptoCore.

(** ** popup script: views, toasts and small helpers *)

Definition showView (viewName : View) : M unit := emit (EvShowView viewName).
Definition showToast (msg type : string) : M unit := emit (EvToast (Msg msg) type).
Definition setLoading (isLoading : bool) : M unit := emit (EvSetLoading isLoading).
Definition renderSnippets : M unit := emit EvRenderSnippets.
Definition preventDefault : M unit := emit (EvDom "preventDefault").

(** Truthiness of a value that is [null] or a string. *)
Definition truthy (v : option string) : bool :=
  match v with
  | Some s => negb (s =? "")
  | None => false
  end.

(** [!!r.monitoring] *)
Definition monitoring_enabled (st : Storage.t) : bool :=
  match Storage.monitoring st with
  | Some b => b
  | None => false
  end.

Definition is_digit (c : ascii) : bool :=
  let n := nat_of_ascii c in ((48 <=? n) && (n <=? 57))%nat.

(** [/^\d{6}$/.test(pin)] *)
Definition test_six_digits (pin : string) : bool :=
  (String.length pin =? 6)%nat && forallb is_digit (list_ascii_of_string pin).

Definition validatePin (pin : string) : M bool :=
  if negb (test_six_digits pin)
  then showToast "PIN must be exactly 6 digits" "error" ;; ret false
  else ret true.

(** White space and line terminators among the code units below 256. *)
Definition is_white_space (c : ascii) : bool :=
  let n := nat_of_ascii c in
  ((n =? 9) || (n =? 10) || (n =? 11) || (n =? 12) || (n =? 13) || (n =? 32)
   || (n =? 160))%nat.

Fixpoint trimStart (s : string) : string :=
  match s with
  | EmptyString => EmptyString
  | String c rest => if is_white_space c then trimStart rest else s
  end.

Definition reverse (s : string) : string :=
  string_of_list_ascii (rev (list_ascii_of_string s)).

Definition trim (s : string) : string :=
  reverse (trimStart (reverse (trimStart s))).

Definition string_of_nat (n : nat) : string :=
  NilZero.string_of_uint (Nat.to_uint n).

Fixpoint findIndex (p : Snippet.t -> bool) (l : Collection) : option nat :=
  match l with
  | [] => None
  | s :: rest =>
      if p s then Some 0%nat
      else match findIndex p rest with
           | Some i => Some (S i)
           | None => None
           end
  end.

(** [l[idx] = v] for an index inside the array. *)
Fixpoint assign_at (idx : nat) (v : Snippet.t) (l : Collection) : Collection :=
  match l, idx with
  | [], _ => []
  | _ :: rest, O => v :: rest
  | s :: rest, S i => s :: assign_at i v rest
  end.

Definition unshift (s : Snippet.t) : M unit :=
  modifyState (fun st => State.with_snippets (s :: State.snippets st) st).

(** ** popup script: handlers *)

Section Popup.
Context {platform : WebPlatform}.

Definition checkSetup : M bool :=
  data <- chrome_storage_local_get ;;
  ret (match Storage.salt data with Some _ => true | None => false end).

Definition saveEncrypted : M unit :=
  st <- getState ;;
  match State.key st with
  | None => ret tt
  | Some key =>
      try_catch
        (encrypted <- CryptoCore.encrypt (State.snippets st) key ;;
         chrome_storage_local_set_encryptedData encrypted)
        (fun _ => showToast "Save failed: Storage error" "error")
  end.

(** The body of [pendingClips.forEach], then the loop. *)
Definition process_clip (clip : PendingClip.t) (count : nat) : M nat :=
  st <- getState ;;
  if negb (existsb (fun s => Snippet.content s =? PendingClip.content clip)
             (State.snippets st))
  then
    id <- crypto_randomUUID ;;
    now <- Date_now ;;
    unshift (Snippet.mk id Snippet.text (PendingClip.content clip)
               Snippet.absent ["auto"] now) ;;
    ret (S count)
  else ret count.

Fixpoint forEach_clip (clips : list PendingClip.t) (count : nat) : M nat :=
  match clips with
  | [] => ret count
  | clip :: rest =>
      count' <- process_clip clip count ;;
      forEach_clip rest count'
  end.

Definition processPendingClips : M unit :=
  st <- chrome_storage_local_get ;;
  match Storage.pendingClips st with
  | None => ret tt
  | Some pendingClips =>
      if (length pendingClips =? 0)%nat then ret tt
      else
        count <- forEach_clip pendingClips 0 ;;
        if (0 <? count)%nat
        then
          saveEncrypted ;;
          chrome_storage_local_remove_pendingClips ;;
          showToast (string_of_nat count ++ " items auto-saved") "success"
        else ret tt
  end.

(** [pin] and [confirm] are the values of the two setup inputs. *)
Definition handleSetup (pin confirm : string) : M unit :=
  preventDefault ;;
  valid <- validatePin pin ;;
  if negb valid then ret tt
  else if negb (pin =? confirm) then showToast "PINs do not match" "error"
  else
    try_finally
      (try_catch
         (setLoading true ;;
          salt <- CryptoCore.generateSalt ;;
          key <- CryptoCore.deriveKey pin salt ;;
          encrypted <- CryptoCore.encrypt [] key ;;
          chrome_storage_local_set_salt_encryptedData (Array_from salt) encrypted ;;
          modifyState (State.with_key (Some key)) ;;
          modifyState (State.with_snippets []) ;;
          showView dashboard ;;
          renderSnippets)
         (fun err => emit (EvToast (MsgOfError "Setup failed: " err) "error")))
      (setLoading false).

(** [pin] is the value of the login input. The timer that takes the shake
    class off again is left out. *)
Definition handleLogin (pin : string) : M unit :=
  preventDefault ;;
  if pin =? "" then ret tt
  else
    try_finally
      (try_catch
         (setLoading true ;;
          st <- chrome_storage_local_get ;;
          match Storage.salt st with
          | None => showView onboarding
          | Some salt =>
              let saltUint := Uint8Array_of_array salt in
              key <- CryptoCore.deriveKey pin saltUint ;;
              snippets <- CryptoCore.decrypt (Storage.encryptedData st) key ;;
              modifyState (State.with_key (Some key)) ;;
              modifyState (State.with_snippets snippets) ;;
              processPendingClips ;;
              showView dashboard ;;
              renderSnippets ;;
              emit (EvDom "auth-pin.value = ''")
          end)
         (fun err =>
            emit (EvConsoleError err) ;;
            emit (EvDom "auth-pin.classList.add('shake')") ;;
            emit (EvDom "auth-pin.value = ''") ;;
            showToast "Incorrect PIN" "error"))
      (setLoading false).

(** [p1] and [p2] are the values of the two inputs of the change-PIN form. *)
Definition handleChangePin (p1 p2 : string) : M unit :=
  preventDefault ;;
  valid <- validatePin p1 ;;
  if negb valid then ret tt
  else if negb (p1 =? p2) then showToast "PINs do not match" "error"
  else
    try_finally
      (try_catch
         (setLoading true ;;
          newSalt <- CryptoCore.generateSalt ;;
          newKey <- CryptoCore.deriveKey p1 newSalt ;;
          st <- getState ;;
          newEncryptedData <- CryptoCore.encrypt (State.snippets st) newKey ;;
          chrome_storage_local_set_salt_encryptedData
            (Array_from newSalt) newEncryptedData ;;
          modifyState (State.with_key (Some newKey)) ;;
          emit (EvDom "modal-change-pin.classList.remove('open')") ;;
          emit (EvDom "new-pin.value = ''") ;;
          emit (EvDom "new-pin-confirm.value = ''") ;;
          showToast "PIN changed & data re-encrypted successfully" "success")
         (fun _ => showToast "Error changing PIN" "error"))
      (setLoading false).

(** [edit_content] is the value of the editor's text area. *)
Definition saveSnippet (edit_content : string) : M unit :=
  let content := trim edit_content in
  st <- getState ;;
  let hasImage := truthy (State.currentImageData st) in
  if (content =? "") && negb hasImage
  then showToast "Snippet cannot be empty" "error"
  else
    id <- (match State.pendingEditId st with
           | Some i => if i =? "" then crypto_randomUUID else ret i
           | None => crypto_randomUUID
           end) ;;
    now <- Date_now ;;
    let newSnippet :=
      Snippet.mk id
        (if hasImage then Snippet.image else Snippet.text)
        (match State.currentImageData st with
         | Some img => if hasImage then img else content
         | None => content
         end)
        (if hasImage then Snippet.caption content else Snippet.null)
        [] now in
    (match State.pendingEditId st with
     | Some i =>
         if i =? "" then unshift newSnippet
         else
           match findIndex (fun s => Snippet.id s =? i) (State.snippets st) with
           | Some idx =>
               modifyState (fun s =>
                 State.with_snippets (assign_at idx newSnippet (State.snippets s)) s)
           | None => ret tt
           end
     | None => unshift newSnippet
     end) ;;
    saveEncrypted ;;
    emit (EvDom "modal-edit.classList.remove('open')") ;;
    renderSnippets ;;
    showToast "Snippet saved securely" "success".

(** [deleteSnippet]: the dialog, then its callback when the user confirms. *)
Definition deleteSnippet (id : string) (confirmed : bool) : M unit :=
  emit (EvDom "confirmAction('Delete Snippet?')") ;;
  if confirmed
  then
    modifyState (fun st =>
      State.with_snippets
        (filter (fun s => negb (Snippet.id s =? id)) (State.snippets st)) st) ;;
    saveEncrypted ;;
    renderSnippets ;;
    showToast "Snippet deleted" "success"
  else ret tt.

End Popup.

(** [bindEvents], as far as it touches the storage: the monitor toggle is
    loaded from the [monitoring] flag. *)
Definition bindEvents : M unit :=
  r <- chrome_storage_local_get ;;
  emit (EvDom (if monitoring_enabled r
               then "toggle-monitor.checked = true"
               else "toggle-monitor.checked = false")).

(** The [change] listener of the monitor toggle. *)
Definition toggle_monitor_change (checked : bool) : M unit :=
  chrome_storage_local_set_monitoring checked.

Definition DOMContentLoaded : M unit :=
  bindEvents ;;
  isSetup <- checkSetup ;;
  if isSetup
  then showView auth ;; emit (EvDom "auth-pin.focus()")
  else showView onboarding.

(** [location.reload()]: the page's script state starts afresh and the page
    loads again. *)
Definition location_reload : M unit :=
  emit EvReload ;;
  modifyState (fun _ => State.initial) ;;
  DOMContentLoaded.

Definition handleReset : M unit :=
  chrome_storage_local_clear ;;
  location_reload.

(** ** content script *)

(** The [copy] listener; [clipboardText] is what [navigator.clipboard.readText]
    gives when the timer fires. *)
Definition copy_listener (clipboardText : Completion string) : M unit :=
  st <- chrome_storage_local_get ;;
  if negb (monitoring_enabled st) then ret tt
  else
    try_catch
      (text <- lift clipboardText ;;
       if negb (text =? "") && (0 <? String.length (trim text))%nat
       then emit (EvSendMessage "autoSave" text)
       else ret tt)
      (fun _ => ret tt).

(** ** A small platform to run the scripts on

    Not the browser's: a stand-in on which the model can be evaluated. The
    derived key is the salt followed by the encoded PIN; a ciphertext is the
    key followed by the plaintext, and decryption checks that prefix. *)

Module Toy.

Fixpoint strip_prefix (p l : bytes) : option bytes :=
  match p, l with
  | [], _ => Some l
  | _ :: _, [] => None
  | a :: p', b :: l' => if Byte.eqb a b then strip_prefix p' l' else None
  end.

Definition show_snippet (s : Snippet.t) : string :=
  "{" ++ Snippet.id s ++ ":"
      ++ (match Snippet.type s with Snippet.text => "text" | Snippet.image => "image" end)
      ++ ":" ++ Snippet.content s ++ ":"
      ++ (match Snippet.metaText s with
          | Snippet.absent => ""
          | Snippet.null => "null"
          | Snippet.caption c => "'" ++ c ++ "'"
          end)
      ++ ":" ++ String.concat "," (Snippet.tags s) ++ ":"
      ++ NilZero.string_of_int (Z.to_int (Snippet.date s)) ++ "}".

Definition stringify (c : Collection) : string :=
  "[" ++ String.concat "," (map show_snippet c) ++ "]".

(** Parsing looks the text up among the serialisations of [known]. *)
Definition parse (known : list Collection) (s : string) : option Collection :=
  find (fun c => stringify c =? s) known.

Definition platform (known : list Collection) : WebPlatform := {|
  PBKDF2 := fun _ _ salt password _ => (salt ++ password)%list;
  AES_GCM_encrypt := fun key _ plaintext => (key ++ plaintext)%list;
  AES_GCM_decrypt := fun key _ data => strip_prefix key data;
  TextEncoder_encode := list_byte_of_string;
  TextDecoder_decode := string_of_list_byte;
  JSON_stringify := stringify;
  JSON_parse := parse known
|}.

Definition oracle (write_ok : nat -> bool) : Oracle := {|
  random_byte := fun t i => ToUint8 (Z.of_nat (7 * t + i));
  randomUUID_at := fun t => "uuid-" ++ string_of_nat t;
  Date_now_at := fun t => (1700000000000 + Z.of_nat t)%Z;
  storage_write_ok := write_ok
|}.

Definition world (st : State.t) (sto : Storage.t) (write_ok : nat -> bool)
    : World :=
  mkWorld st sto [] (oracle write_ok) 0.

End Toy.

(** Handler invocations one after the other, each started whatever the
    outcome of the one before. *)
Definition run_all (handlers : list (M unit)) (w : World) : World :=
  fold_left (fun w' h => exec h w') handlers w.

(** The pending queue as the scripts read it: [pendingClips || []]. *)
Definition queue (sto : Storage.t) : list PendingClip.t :=
  match Storage.pendingClips sto with
  | Some l => l
  | None => []
  end.

(** ** Predicates used in the statements *)

(** The error thrown by the [catch] block of [decrypt]. *)
Definition uniform_error : JsError :=
  Error "Decryption failed. Invalid PIN or corrupted data.".

(** A PIN is wrong for a storage when the envelope kept there does not
    decrypt under the key derived from that PIN and the stored salt. *)
Definition wrong_pin {platform : WebPlatform} (sto : Storage.t) (pin : string)
    : Prop :=
  forall saltArr w,
    Storage.salt sto = Some saltArr ->
    exists e,
      result (CryptoCore.decrypt (Storage.encryptedData sto)
                (CryptoCore.subtle_deriveKey pin (Uint8Array_of_array saltArr))) w
      = Throw e.

(** [col.some(s => s.content === c)] *)
Definition has_content (c : string) (col : Collection) : bool :=
  existsb (fun s => Snippet.content s =? c) col.

(** The snippet made from a pending clip when the counter of the oracle
    stands at [t]. *)
Definition auto_snippet (o : Oracle) (t : nat) (clip : PendingClip.t) : Snippet.t :=
  Snippet.mk (randomUUID_at o t) Snippet.text (PendingClip.content clip)
    Snippet.absent ["auto"] (Date_now_at o (S t)).

(** What reconciliation adds: text snippets tagged [auto], without
    [metaText], each with the content of a pending clip that the collection
    did not have. *)
Definition added_from (pending : list PendingClip.t) (before : Collection)
    (s : Snippet.t) : Prop :=
  Snippet.type s = Snippet.text /\
  Snippet.tags s = ["auto"] /\
  Snippet.metaText s = Snippet.absent /\
  In (Snippet.content s) (map PendingClip.content pending) /\
  has_content (Snippet.content s) before = false.

(** Log entries other than a key derivation. *)
Definition not_a_derivation (ev : Event) : Prop :=
  forall p s, ev <> EvDeriveKey p s.

(** What a handler logs when [validatePin] refuses the PIN. *)
Definition rejection : list Event :=
  [EvDom "preventDefault"; EvToast (Msg "PIN must be exactly 6 digits") "error"].


(** ** Concrete worlds

    Built by running the scripts on the small platform, with an oracle under
    which every storage write succeeds. *)

Module Scenario.

Definition foo_snippet : Snippet.t :=
  Snippet.mk "uuid-3" Snippet.text "foo" Snippet.null [] 1700000000004.

Definition platform : WebPlatform := Toy.platform [[]; [foo_snippet]].

Definition fresh : World :=
  Toy.world State.initial Storage.empty (fun _ => true).

(** Setup with PIN 123456 on an empty storage. *)
Definition unlocked_empty : World :=
  exec (handleSetup (platform := platform) "123456" "123456") fresh.

(** Closing the popup discards its [State]. *)
Definition close_popup (w : World) : World := with_state State.initial w.

Definition locked_empty : World := close_popup unlocked_empty.

Definition locked_with_foo : World :=
  close_popup (exec (saveSnippet (platform := platform) "foo") unlocked_empty).

Definition locked_with_foo_pending_foo : World :=
  exec (addToPending "foo") locked_with_foo.

Definition locked_empty_pending_foo_bar : World :=
  exec (addToPending "foo") (exec (addToPending "bar") locked_empty).

(** Twenty insertions of different clips fill the queue. *)
Definition full_queue : World :=
  run_all
    (map (fun n => addToPending ("clip" ++ string_of_nat n)) (seq 0 20))
    locked_empty.

(** The monitor toggle is switched on and a clip is captured. *)
Definition monitoring_on : World :=
  exec (addToPending "foo") (exec (toggle_monitor_change true) unlocked_empty).

Definition stored_salt : list Z :=
  [0; 1; 2; 3; 4; 5; 6; 7; 8; 9; 10; 11; 12; 13; 14; 15]%Z.

Definition key_123456 : CryptoKey :=
  CryptoCore.subtle_deriveKey (platform := platform) "123456"
    (Uint8Array_of_array stored_salt).

End Scenario.


(** ** popup script: the editor, import and HTML escaping *)

Definition State_with_pendingEditId (id : option string) (s : State.t) : State.t :=
  State.mk (State.key s) (State.snippets s) id (State.currentImageData s).

Definition State_with_currentImageData (img : option string) (s : State.t)
    : State.t :=
  State.mk (State.key s) (State.snippets s) (State.pendingEditId s) img.

(** [State.currentEditType], which [clearImagePreview], [handlePaste] and
    [openEditModal] also assign, is read nowhere in the script and is not
    kept. *)
Definition clearImagePreview : M unit :=
  modifyState (State_with_currentImageData None) ;;
  emit (EvDom "edit-image-preview.src = ''") ;;
  emit (EvDom "edit-image-preview-container.classList.add('hidden')") ;;
  emit (EvDom "edit-content.placeholder = 'Type text or Paste (Ctrl+V) an image...'").

(** [handlePaste]: each clipboard item is its MIME type with the data URL
    that the [FileReader] gives for it; the reader's [onload] is run at
    once. *)
Definition handlePaste (items : list (string * string)) : M unit :=
  match find (fun item => prefix "image" (fst item)) items with
  | Some (_, dataUrl) =>
      preventDefault ;;
      modifyState (State_with_currentImageData (Some dataUrl)) ;;
      emit (EvDom "edit-image-preview.src = State.currentImageData") ;;
      emit (EvDom "edit-image-preview-container.classList.remove('hidden')") ;;
      emit (EvDom "edit-content.placeholder = 'Add a caption (optional)...'")
  | None => ret tt
  end.

(** [snip.metaText || ''] *)
Definition metaText_or_empty (m : Snippet.meta) : string :=
  match m with
  | Snippet.caption c => c
  | Snippet.null => ""
  | Snippet.absent => ""
  end.

(** [openEditModal(id)]; the result is the value given to the text area.
    Reading [type] of a snippet that [find] did not find is a TypeError. *)
Definition openEditModal (id : option string) : M string :=
  modifyState (State_with_pendingEditId id) ;;
  clearImagePreview ;;
  value <-
    (match id with
     | Some i =>
         if i =? "" then
           emit (EvDom "modal-title.textContent = 'New Snippet'") ;; ret ""
         else
           st <- getState ;;
           match find (fun s => Snippet.id s =? i) (State.snippets st) with
           | None => throw TypeError
           | Some snip =>
               value <-
                 (match Snippet.type snip with
                  | Snippet.image =>
                      modifyState
                        (State_with_currentImageData (Some (Snippet.content snip))) ;;
                      emit (EvDom "edit-image-preview.src = snip.content") ;;
                      emit (EvDom "edit-image-preview-container.classList.remove('hidden')") ;;
                      ret (metaText_or_empty (Snippet.metaText snip))
                  | Snippet.text => ret (Snippet.content snip)
                  end) ;;
               emit (EvDom "modal-title.textContent = 'Edit Snippet'") ;;
               ret value
           end
     | None =>
         emit (EvDom "modal-title.textContent = 'New Snippet'") ;; ret ""
     end) ;;
  emit (EvDom "modal-edit.classList.add('open')") ;;
  emit (EvDom "edit-content.focus()") ;;
  ret value.

Definition push (s : Snippet.t) : M unit :=
  modifyState (fun st => State.with_snippets (State.snippets st ++ [s])%list st).

(** The body of [imported.forEach] in [handleImport], then the loop. An item
    is a snippet object, so it always has a [type]; its [content] is falsy
    when empty. *)
Definition import_item (item : Snippet.t) (added : nat) : M nat :=
  if Snippet.content item =? "" then ret added
  else
    st <- getState ;;
    if negb (existsb (fun s => Snippet.content s =? Snippet.content item)
               (State.snippets st))
    then
      id <- crypto_randomUUID ;;
      push (Snippet.mk id (Snippet.type item) (Snippet.content item)
              (Snippet.metaText item) (Snippet.tags item) (Snippet.date item)) ;;
      ret (S added)
    else ret added.

Fixpoint forEach_item (imported : Collection) (added : nat) : M nat :=
  match imported with
  | [] => ret added
  | item :: rest =>
      added' <- import_item item added ;;
      forEach_item rest added'
  end.

Section PopupImport.
Context {platform : WebPlatform}.

(** [handleImport]: [file] is the text of the chosen file, if one was chosen;
    [confirmed] tells whether the user confirms the dialog. A text that does
    not parse, or not to an array, ends in the [catch]; the callback of the
    dialog runs on the click, after the [try] block has been left. *)
Definition handleImport (file : option string) (confirmed : bool) : M unit :=
  match file with
  | None => ret tt
  | Some text =>
      emit (EvDom "import-file-input.value = ''") ;;
      dialog <-
        try_catch
          (match JSON_parse text with
           | None => throw SyntaxError
           | Some imported =>
               emit (EvDom "confirmAction('Import Data')") ;;
               ret (Some imported)
           end)
          (fun _ => showToast "Invalid JSON file" "error" ;; ret None) ;;
      match dialog with
      | Some imported =>
          if confirmed
          then
            added <- forEach_item imported 0 ;;
            saveEncrypted ;;
            renderSnippets ;;
            showToast ("Imported " ++ string_of_nat added ++ " snippets")
              "success" ;;
            emit (EvDom "modal-settings.classList.remove('open')")
          else ret tt
      | None => ret tt
      end
  end.

End PopupImport.

(** [text.replace(/c/g, by)] for a single character [c]. *)
Fixpoint replace_all (c : ascii) (by_ : string) (text : string) : string :=
  match text with
  | EmptyString => EmptyString
  | String a rest =>
      if Ascii.eqb a c then by_ ++ replace_all c by_ rest
      else String a (replace_all c by_ rest)
  end.

Definition double_quote : ascii := ascii_of_nat 34.

Definition escapeHtml (text : string) : string :=
  if text =? "" then ""
  else
    replace_all "'" "&#039;"
      (replace_all double_quote "&quot;"
         (replace_all ">" "&gt;"
            (replace_all "<" "&lt;"
               (replace_all "&" "&amp;" text)))).

(** ** Further predicates and concrete worlds *)

(** Every character of [s] is white space. *)
Definition blank (s : string) : bool :=
  forallb is_white_space (list_ascii_of_string s).

(** The platform carries a collection under a key when its cipher undoes
    itself, under that key, on the encoded JSON text of the collection, and
    the text codecs and JSON give the collection back. *)
Definition carries {platform : WebPlatform} (key : CryptoKey) (c : Collection)
    : Prop :=
  (forall iv,
      AES_GCM_decrypt key iv
        (AES_GCM_encrypt key iv (TextEncoder_encode (JSON_stringify c)))
      = Some (TextEncoder_encode (JSON_stringify c))) /\
  JSON_parse (TextDecoder_decode (TextEncoder_encode (JSON_stringify c)))
    = Some c.

(** The stored envelope decrypts, under the session key, to the collection
    held in memory. *)
Definition in_step {platform : WebPlatform} (w : World) : Prop :=
  exists key,
    State.key (state w) = Some key /\
    forall w0,
      CryptoCore.decrypt (Storage.encryptedData (storage w)) key w0
      = (Normal (State.snippets (state w)), w0).

(** The one-character escapes of [escapeHtml]. *)
Definition escape_char (a : ascii) : string :=
  if Ascii.eqb a "&" then "&amp;"
  else if Ascii.eqb a "<" then "&lt;"
  else if Ascii.eqb a ">" then "&gt;"
  else if Ascii.eqb a double_quote then "&quot;"
  else if Ascii.eqb a "'" then "&#039;"
  else String a EmptyString.

Fixpoint escape_each (text : string) : string :=
  match text with
  | EmptyString => EmptyString
  | String a rest => escape_char a ++ escape_each rest
  end.

(** The IV that the next [encrypt] draws. *)
Definition next_iv (w : World) : bytes :=
  map (random_byte (oracle w) (tick w)) (seq 0 12).




(** The characters that [escapeHtml] must not let through. *)
Definition markup (c : ascii) : bool :=
  Ascii.eqb c "<" || Ascii.eqb c ">" || Ascii.eqb c double_quote
  || Ascii.eqb c "'".

(** More concrete worlds, on the small platform. *)
Module Fixture.

Definition bar_item : Snippet.t :=
  Snippet.mk "id-in-file" Snippet.text "bar" Snippet.null ["work"] 1600000000000.

Definition empty_item : Snippet.t :=
  Snippet.mk "id-of-empty" Snippet.text "" Snippet.null [] 1600000000001.

(** A backup file with a snippet that the vault has, a new one, one of empty
    content, and the new one again. *)
Definition backup : Collection :=
  [Scenario.foo_snippet; bar_item; empty_item; bar_item].

Definition platform : WebPlatform :=
  Toy.platform [[]; [Scenario.foo_snippet]; backup].

Definition backup_text : string := Toy.stringify backup.

(** The vault of PIN 123456, open, with the one snippet foo. *)
Definition unlocked_foo : World :=
  exec (saveSnippet (platform := platform) "foo") Scenario.unlocked_empty.

(** The same world with a storage that rejects every write. *)
Definition rejecting (w : World) : World :=
  mkWorld (state w) (storage w) (log w) (Toy.oracle (fun _ => false)) (tick w).

(** The vault with foo, closed, with the clip bar pending. *)
Definition locked_foo_pending_bar : World :=
  exec (addToPending "bar") Scenario.locked_with_foo.

(** A storage with a salt and nothing else. *)
Definition salt_only : World :=
  Toy.world State.initial
    (Storage.mk (Some Scenario.stored_salt) EnvUndefined None None)
    (fun _ => true).

Definition clipboard_items : list (string * string) :=
  [("text/plain", "caption"); ("image/png", "data:image/png;base64,AAAA")].

End Fixture.

(** * Properties *)

(** Unfolds the combinators of the monad and the one-line effects. *)
Ltac run_script :=
  cbv [exec result bind ret throw lift try_catch try_finally emit getState
       modifyState draw getOracle getRandomValues crypto_randomUUID Date_now
       chrome_storage_local_get storage_write showView showToast setLoading
       renderSnippets preventDefault validatePin unshift
       with_log with_state with_storage with_tick];
  cbn.

(** A derivation found in the log of a world either was there before the
    handler ran, or is of the PIN the handler was given. *)
Ltac derivation_in_log H :=
  apply in_app_or in H; destruct H as [H | H];
  [left; exact H
  | right; cbn in H;
    repeat (destruct H as [H | H]; try discriminate H);
    try contradiction; try (injection H as <- <-; auto)].

Lemma run_all_cons (h : M unit) (hs : list (M unit)) (w : World) :
  run_all (h :: hs) w = run_all hs (exec h w).
Proof. reflexivity. Qed.

(** ** Typed arrays and plain arrays *)

Lemma ToUint8_of_byte (b : byte) : ToUint8 (Z.of_N (Byte.to_N b)) = b.
Proof. destruct b; reflexivity. Qed.

Lemma Uint8Array_of_Array_from (u : bytes) :
  Uint8Array_of_array (Array_from u) = u.
Proof.
  unfold Uint8Array_of_array, Array_from.
  induction u as [| b u IH]; simpl.
  - reflexivity.
  - now rewrite ToUint8_of_byte, IH.
Qed.

Lemma new_Uint8Array_Array_from (u : bytes) :
  new_Uint8Array (FArray (Array_from u)) = Normal u.
Proof. simpl. now rewrite Uint8Array_of_Array_from. Qed.

Lemma getRandomValues_length (len : nat) (w : World) :
  exists u, result (getRandomValues len) w = Normal u /\ length u = len.
Proof.
  eexists. split; [reflexivity |].
  now rewrite length_map, length_seq.
Qed.

(** ** CryptoCore *)

Section CryptoCoreProperties.
Context {platform : WebPlatform}.

(** [decrypt] neither reads nor changes the world. *)
Lemma decrypt_world (encryptedObj : JsEnvelope) (key : CryptoKey) (w : World) :
  snd (CryptoCore.decrypt encryptedObj key w) = w.
Proof.
  unfold CryptoCore.decrypt.
  destruct encryptedObj as [| | iv content]; try reflexivity.
  run_script.
  destruct (new_Uint8Array iv); [| reflexivity].
  destruct (new_Uint8Array content); [| reflexivity].
  destruct (AES_GCM_decrypt key a a0) as [pt |]; [| reflexivity].
  destruct (JSON_parse (TextDecoder_decode pt)); reflexivity.
Qed.

Lemma decrypt_any_world (encryptedObj : JsEnvelope) (key : CryptoKey)
    (w1 w2 : World) :
  result (CryptoCore.decrypt encryptedObj key) w1
  = result (CryptoCore.decrypt encryptedObj key) w2.
Proof.
  unfold CryptoCore.decrypt.
  destruct encryptedObj as [| | iv content]; try reflexivity.
  run_script.
  destruct (new_Uint8Array iv); [| reflexivity].
  destruct (new_Uint8Array content); [| reflexivity].
  destruct (AES_GCM_decrypt key a a0) as [pt |]; [| reflexivity].
  destruct (JSON_parse (TextDecoder_decode pt)); reflexivity.
Qed.

Lemma decrypt_at (encryptedObj : JsEnvelope) (key : CryptoKey) (w w0 : World) :
  CryptoCore.decrypt encryptedObj key w
  = (result (CryptoCore.decrypt encryptedObj key) w0, w).
Proof.
  rewrite (decrypt_any_world encryptedObj key w0 w).
  rewrite <- (decrypt_world encryptedObj key w) at 3.
  unfold result. now destruct (CryptoCore.decrypt encryptedObj key w).
Qed.

(** Once both fields have been turned into typed arrays, every failure of
    the cipher or of the parser comes out as the one uniform error. *)
Lemma decrypt_uniform_inside_try (iv content : JsField) (ivBytes data : bytes)
    (key : CryptoKey) (w : World) (e : JsError) :
  new_Uint8Array iv = Normal ivBytes ->
  new_Uint8Array content = Normal data ->
  result (CryptoCore.decrypt (EnvObject iv content) key) w = Throw e ->
  e = uniform_error.
Proof.
  intros Hiv Hdata. unfold CryptoCore.decrypt. run_script.
  rewrite Hiv, Hdata.
  destruct (AES_GCM_decrypt key ivBytes data) as [pt |]; cbn.
  - destruct (JSON_parse (TextDecoder_decode pt)); cbn; intros E;
      inversion E; reflexivity.
  - intros E; inversion E; reflexivity.
Qed.

(** C5. Round trip: encrypting a collection [C] under a key [K] gives an
    envelope, and decrypting that envelope under [K] gives [C] back, for
    every key on which the platform's cipher undoes itself at the encoded
    text of [C], and every [C] that the platform's JSON and text codecs carry
    through unchanged. *)
Theorem encrypt_decrypt_roundtrip (C : Collection) (K : CryptoKey) (w : World) :
  (forall iv,
      AES_GCM_decrypt K iv
        (AES_GCM_encrypt K iv (TextEncoder_encode (JSON_stringify C)))
      = Some (TextEncoder_encode (JSON_stringify C))) ->
  JSON_parse (TextDecoder_decode (TextEncoder_encode (JSON_stringify C)))
    = Some C ->
  exists envelope w',
    CryptoCore.encrypt C K w = (Normal envelope, w') /\
    forall w1, CryptoCore.decrypt envelope K w1 = (Normal C, w1).
Proof.
  intros Hcipher Hjson.
  unfold CryptoCore.encrypt. run_script.
  do 2 eexists. split; [reflexivity |].
  intros w1. unfold CryptoCore.decrypt, CryptoCore.envelope_of.
  cbv [bind lift try_catch ret get_iv get_content].
  rewrite !new_Uint8Array_Array_from, Hcipher, Hjson.
  reflexivity.
Qed.

(** C3. The conversions of the envelope's fields stand before the [try]
    block of [decrypt], so their exceptions are not turned into the uniform
    error: with no envelope at all, reading [iv] is a TypeError, and with a
    negative number as [iv], building the typed array is a RangeError. *)
Theorem decrypt_malformed_envelope_errors (key : CryptoKey) (w : World) :
  CryptoCore.decrypt EnvUndefined key w = (Throw TypeError, w) /\
  CryptoCore.decrypt EnvNull key w = (Throw TypeError, w) /\
  CryptoCore.decrypt (EnvObject (FNumber (-1)) (FArray [])) key w
    = (Throw RangeError, w) /\
  CryptoCore.decrypt (EnvObject (FArray []) (FNumber (-1))) key w
    = (Throw RangeError, w) /\
  TypeError <> uniform_error /\ RangeError <> uniform_error.
Proof. repeat split; try reflexivity; discriminate. Qed.

End CryptoCoreProperties.

(** ** Changing the PIN *)

Section RekeyProperties.
Context {platform : WebPlatform}.

(** What [handleChangePin] leaves behind, by cases on the validation, the
    confirmation and the outcome of the one storage write. *)
Lemma handleChangePin_outcome (newPin confirm : string) (w : World) :
  let w' := exec (handleChangePin newPin confirm) w in
  let newSalt :=
    map (random_byte (oracle w) (tick w)) (seq 0 CryptoCore.config.saltLen) in
  let iv := map (random_byte (oracle w) (S (tick w))) (seq 0 12) in
  let newKey := CryptoCore.subtle_deriveKey newPin newSalt in
  State.snippets (state w') = State.snippets (state w) /\
  if test_six_digits newPin && (newPin =? confirm)
     && storage_write_ok (oracle w) (S (S (tick w)))
  then
    storage w' =
      Storage.mk (Some (Array_from newSalt))
        (CryptoCore.envelope_of iv (State.snippets (state w)) newKey)
        (Storage.pendingClips (storage w)) (Storage.monitoring (storage w))
    /\ State.key (state w') = Some newKey
  else
    storage w' = storage w /\ State.key (state w') = State.key (state w).
Proof.
  unfold handleChangePin, CryptoCore.generateSalt, CryptoCore.deriveKey,
    CryptoCore.encrypt, chrome_storage_local_set_salt_encryptedData.
  destruct (test_six_digits newPin) eqn:Hvalid;
    destruct (newPin =? confirm) eqn:Hconfirm;
    destruct (storage_write_ok (oracle w) (S (S (tick w)))) eqn:Hwrite;
    run_script; rewrite ?Hvalid, ?Hconfirm; cbn; rewrite ?Hwrite; cbn; auto.
Qed.

(** C1. Rekey atomicity. [handleChangePin] draws the new salt, then the IV,
    then writes salt and envelope in one [set]. When the PIN is valid, is
    confirmed and that write succeeds, the storage holds the new salt with
    the envelope of the current collection under the new key, the session
    key is the new key, and it is the key that the stored salt gives back
    with the new PIN. In every other case, a rejected write included, the
    storage and the session key are what they were. The collection in memory
    never changes. *)
Theorem rekey_atomicity (newPin confirm : string) (w : World) :
  let w' := exec (handleChangePin newPin confirm) w in
  let newSalt :=
    map (random_byte (oracle w) (tick w)) (seq 0 CryptoCore.config.saltLen) in
  let iv := map (random_byte (oracle w) (S (tick w))) (seq 0 12) in
  let newKey := CryptoCore.subtle_deriveKey newPin newSalt in
  State.snippets (state w') = State.snippets (state w) /\
  if test_six_digits newPin && (newPin =? confirm)
     && storage_write_ok (oracle w) (S (S (tick w)))
  then
    Storage.salt (storage w') = Some (Array_from newSalt) /\
    Storage.encryptedData (storage w')
      = CryptoCore.envelope_of iv (State.snippets (state w)) newKey /\
    Storage.pendingClips (storage w') = Storage.pendingClips (storage w) /\
    Storage.monitoring (storage w') = Storage.monitoring (storage w) /\
    State.key (state w') = Some newKey /\
    (forall saltArr,
        Storage.salt (storage w') = Some saltArr ->
        CryptoCore.subtle_deriveKey newPin (Uint8Array_of_array saltArr) = newKey)
  else
    storage w' = storage w /\ State.key (state w') = State.key (state w).
Proof.
  intros w' newSalt iv newKey.
  destruct (handleChangePin_outcome newPin confirm w) as [Hsnippets Hcases].
  split; [exact Hsnippets |].
  fold w' newSalt iv newKey in Hcases.
  destruct (test_six_digits newPin && (newPin =? confirm)
            && storage_write_ok (oracle w) (S (S (tick w)))).
  - destruct Hcases as [Hsto Hkey]. rewrite Hsto.
    cbn [Storage.salt Storage.encryptedData Storage.pendingClips
         Storage.monitoring].
    repeat split; try assumption.
    intros saltArr Hsalt.
    assert (E : saltArr = Array_from newSalt) by congruence.
    rewrite E. now rewrite Uint8Array_of_Array_from.
  - exact Hcases.
Qed.

End RekeyProperties.

(** ** Unlocking with a wrong PIN *)

Section UnlockProperties.
Context {platform : WebPlatform}.

Opaque CryptoCore.decrypt.

(** One failed attempt: the handler completes normally and only the log has
    grown. *)
Lemma handleLogin_wrong_pin (pin : string) (w : World) :
  wrong_pin (storage w) pin ->
  exists events, handleLogin pin w = (Normal tt, with_log (log w ++ events)%list w).
Proof.
  intros Hwrong. unfold handleLogin.
  destruct (pin =? "") eqn:Hempty.
  - exists [EvDom "preventDefault"]. reflexivity.
  - destruct (Storage.salt (storage w)) as [saltArr |] eqn:Hsalt.
    + destruct (Hwrong saltArr w Hsalt) as [e He].
      unfold CryptoCore.deriveKey. run_script. rewrite Hsalt. run_script.
      rewrite (decrypt_at _ _ _ w), He. run_script.
      eexists. rewrite <- !app_assoc. reflexivity.
    + eexists. run_script. rewrite Hsalt. run_script.
      rewrite <- !app_assoc. reflexivity.
Qed.

Transparent CryptoCore.decrypt.

(** C6. Wrong-PIN idempotence: however many unlock attempts are made from
    the Locked state with PINs that are wrong for the stored vault, the
    storage (salt, envelope, pending queue, monitoring flag) is what it was
    and the session still holds no key and the collection it had. *)
Theorem wrong_pin_idempotence (pins : list string) (w : World) :
  State.key (state w) = None ->
  (forall pin, In pin pins -> wrong_pin (storage w) pin) ->
  let w' := run_all (map handleLogin pins) w in
  storage w' = storage w /\
  State.key (state w') = None /\
  State.snippets (state w') = State.snippets (state w).
Proof.
  intros Hlocked. revert w Hlocked.
  induction pins as [| pin pins IH]; intros w Hlocked Hwrong.
  - cbn. auto.
  - destruct (handleLogin_wrong_pin pin w) as [events Hrun].
    { apply Hwrong. now left. }
    assert (Hexec : exec (handleLogin pin) w = with_log (log w ++ events)%list w)
      by (unfold exec; now rewrite Hrun).
    cbn [map]. rewrite run_all_cons, Hexec.
    apply (IH (with_log (log w ++ events)%list w)); [exact Hlocked |].
    intros p Hp. apply Hwrong. now right.
Qed.

End UnlockProperties.

(** ** The pending queue of the background script *)

Lemma removelast_length {A} (l : list A) :
  length (removelast l) = pred (length l).
Proof.
  induction l as [| a [| b l] IH]; try reflexivity.
  change (removelast (a :: b :: l)) with (a :: removelast (b :: l)).
  cbn [length]. rewrite IH. reflexivity.
Qed.

(** One insertion, by cases on the head of the queue and on the write. *)
Lemma addToPending_outcome (content : string) (w : World) :
  let q := queue (storage w) in
  let entry := PendingClip.mk content (Date_now_at (oracle w) (tick w)) in
  let w' := exec (addToPending content) w in
  match q with
  | head :: _ =>
      if PendingClip.content head =? content then w' = w
      else if storage_write_ok (oracle w) (S (tick w))
           then queue (storage w')
                = (if (20 <? length (entry :: q))%nat
                   then removelast (entry :: q) else entry :: q)
           else storage w' = storage w
  | [] =>
      if storage_write_ok (oracle w) (S (tick w))
      then queue (storage w') = [entry]
      else storage w' = storage w
  end.
Proof.
  unfold addToPending, chrome_storage_local_set_pendingClips, queue.
  destruct (Storage.pendingClips (storage w)) as [[| head rest] |] eqn:Hq;
    run_script; rewrite Hq;
    try destruct (PendingClip.content head =? content);
    run_script;
    destruct (storage_write_ok (oracle w) (S (tick w))); reflexivity.
Qed.

(** C8. Insertion into the pending queue. From a queue of at most 20
    entries: after one insertion the queue has at most 20 entries; an
    insertion whose content is that of the head changes nothing at all; any
    other insertion whose write succeeds puts the new clip at the head, and
    drops the last, oldest, clip when the queue was full; and the bound
    holds after any sequence of insertions. *)
Theorem pending_queue_insertion (w : World) :
  (length (queue (storage w)) <= 20)%nat ->
  (forall content,
      let q := queue (storage w) in
      let w' := exec (addToPending content) w in
      (length (queue (storage w')) <= 20)%nat /\
      (forall head rest,
          q = head :: rest -> PendingClip.content head = content -> w' = w) /\
      ((forall head rest,
           q = head :: rest -> PendingClip.content head <> content) ->
       storage_write_ok (oracle w) (S (tick w)) = true ->
       exists timestamp,
         queue (storage w')
         = PendingClip.mk content timestamp
             :: (if (length q =? 20)%nat then removelast q else q))) /\
  (forall contents,
      (length (queue (storage (run_all (map addToPending contents) w))) <= 20)%nat).
Proof.
  assert (Hstep : forall content w0,
             (length (queue (storage w0)) <= 20)%nat ->
             (length (queue (storage (exec (addToPending content) w0))) <= 20)%nat).
  { intros content w0 Hlen.
    pose proof (addToPending_outcome content w0) as H. cbv zeta in H.
    destruct (queue (storage w0)) as [| head rest] eqn:Hq.
    - destruct (storage_write_ok (oracle w0) (S (tick w0))).
      + rewrite H. cbn. lia.
      + rewrite H, Hq. cbn. lia.
    - destruct (PendingClip.content head =? content).
      + rewrite H, Hq. exact Hlen.
      + destruct (storage_write_ok (oracle w0) (S (tick w0))).
        * rewrite H.
          destruct (20 <? length (_ :: head :: rest))%nat eqn:Hfull.
          -- rewrite removelast_length. cbn [length] in *. lia.
          -- apply Nat.ltb_ge in Hfull. exact Hfull.
        * rewrite H, Hq. exact Hlen. }
  intros Hlen. split.
  - intros content q w'. split; [| split].
    + apply Hstep, Hlen.
    + intros head rest Hq Hsame.
      pose proof (addToPending_outcome content w) as H. cbv zeta in H.
      fold q in H. rewrite Hq in H.
      apply String.eqb_eq in Hsame. rewrite Hsame in H. exact H.
    + intros Hother Hwrite.
      pose proof (addToPending_outcome content w) as H. cbv zeta in H.
      fold q w' in H. fold q in Hlen. rewrite Hwrite in H.
      exists (Date_now_at (oracle w) (tick w)).
      destruct q as [| head rest] eqn:Hq.
      * exact H.
      * specialize (Hother head rest eq_refl).
        apply String.eqb_neq in Hother. rewrite Hother in H. rewrite H.
        destruct (length (head :: rest) =? 20)%nat eqn:Hfull.
        -- apply Nat.eqb_eq in Hfull.
           replace (20 <? length (_ :: head :: rest))%nat with true
             by (symmetry; apply Nat.ltb_lt; cbn [length] in *; lia).
           reflexivity.
        -- apply Nat.eqb_neq in Hfull.
           replace (20 <? length (_ :: head :: rest))%nat with false
             by (symmetry; apply Nat.ltb_ge; cbn [length] in *; lia).
           reflexivity.
  - intros contents. revert w Hlen.
    induction contents as [| content contents IH]; intros w Hlen.
    + exact Hlen.
    + cbn [map]. rewrite run_all_cons. apply IH, Hstep, Hlen.
Qed.

(** ** Saving while no key is held *)

Section MutateProperties.
Context {platform : WebPlatform}.

Lemma saveEncrypted_locked (w : World) :
  State.key (state w) = None -> saveEncrypted w = (Normal tt, w).
Proof. intros Hlocked. unfold saveEncrypted. run_script. now rewrite Hlocked. Qed.

(** C9, as the code has it. With no session key, [saveEncrypted] returns
    at once: no exception, and the world is what it was. [saveSnippet]
    and the confirmed [deleteSnippet] therefore complete normally with the
    storage untouched; [saveSnippet] with a text to save still puts the new
    snippet into the collection in memory and ends on its success toast. *)
Theorem mutate_while_locked_is_silent (w : World) :
  State.key (state w) = None ->
  saveEncrypted w = (Normal tt, w) /\
  (forall edit_content,
      result (saveSnippet edit_content) w = Normal tt /\
      storage (exec (saveSnippet edit_content) w) = storage w) /\
  (forall id confirmed,
      result (deleteSnippet id confirmed) w = Normal tt /\
      storage (exec (deleteSnippet id confirmed) w) = storage w) /\
  (forall edit_content,
      trim edit_content <> "" ->
      State.pendingEditId (state w) = None ->
      State.currentImageData (state w) = None ->
      let w' := exec (saveSnippet edit_content) w in
      State.snippets (state w')
        = Snippet.mk (randomUUID_at (oracle w) (tick w)) Snippet.text
            (trim edit_content) Snippet.null []
            (Date_now_at (oracle w) (S (tick w)))
          :: State.snippets (state w) /\
      log w' = (log w ++ [EvDom "modal-edit.classList.remove('open')";
                          EvRenderSnippets;
                          EvToast (Msg "Snippet saved securely") "success"])%list).
Proof.
  intros Hlocked. split; [now apply saveEncrypted_locked |].
  split; [| split].
  - intros edit_content. unfold saveSnippet. run_script.
    destruct ((trim edit_content =? "") && negb (truthy (State.currentImageData (state w))));
      [split; reflexivity |].
    destruct (State.pendingEditId (state w)) as [i |];
      [destruct (i =? "") |]; run_script;
      try destruct (findIndex _ _); run_script;
      unfold saveEncrypted; run_script; rewrite Hlocked; split; reflexivity.
  - intros id [|]; unfold deleteSnippet, saveEncrypted; run_script;
      rewrite ?Hlocked; split; reflexivity.
  - intros edit_content Htext Hid Himg w'. subst w'.
    apply String.eqb_neq in Htext.
    unfold saveSnippet, saveEncrypted. run_script.
    rewrite Htext, Hid, Himg. run_script. rewrite Hlocked. run_script.
    rewrite <- !app_assoc. split; reflexivity.
Qed.

End MutateProperties.

(** ** Reset *)

(** C10. A reset whose [clear] goes through leaves nothing in
    [chrome.storage.local]: salt, envelope and pending queue are gone, and so
    is the [monitoring] flag. The page reloads with a fresh [State], the
    monitor toggle is loaded unchecked, the onboarding view is shown, and
    the content script's [copy] listener returns without sending anything. *)
Theorem reset_erases_entire_storage (w : World) :
  storage_write_ok (oracle w) (tick w) = true ->
  let w' := exec handleReset w in
  result handleReset w = Normal tt /\
  storage w' = Storage.empty /\
  Storage.monitoring (storage w') = None /\
  monitoring_enabled (storage w') = false /\
  state w' = State.initial /\
  log w' = (log w ++ [EvReload; EvDom "toggle-monitor.checked = false";
                      EvShowView onboarding])%list /\
  forall clipboardText, copy_listener clipboardText w' = (Normal tt, w').
Proof.
  intros Hwrite w'. subst w'.
  unfold handleReset, chrome_storage_local_clear, location_reload,
    DOMContentLoaded, bindEvents, checkSetup, copy_listener.
  run_script. rewrite Hwrite. run_script.
  rewrite <- !app_assoc. repeat split.
Qed.

(** ** Reconciling the pending queue *)

Lemma bind_normal {A B} (m : M A) (k : A -> M B) (w w' : World) (a : A) :
  m w = (Normal a, w') -> bind m k w = k a w'.
Proof. intros H. unfold bind. now rewrite H. Qed.

Lemma has_content_app (c : string) (l1 l2 : Collection) :
  has_content c (l1 ++ l2)%list = has_content c l1 || has_content c l2.
Proof. apply existsb_app. Qed.

Section ReconcileProperties.
Context {platform : WebPlatform}.

Lemma process_clip_outcome (clip : PendingClip.t) (count : nat) (w : World) :
  process_clip clip count w =
  if has_content (PendingClip.content clip) (State.snippets (state w))
  then (Normal count, w)
  else (Normal (S count),
        mkWorld
          (State.with_snippets
             (auto_snippet (oracle w) (tick w) clip :: State.snippets (state w))
             (state w))
          (storage w) (log w) (oracle w) (S (S (tick w)))).
Proof.
  unfold process_clip, has_content. run_script.
  destruct (existsb _ (State.snippets (state w))); reflexivity.
Qed.

Lemma forEach_clip_app (pre post : list PendingClip.t) (count : nat) (w : World) :
  forEach_clip (pre ++ post)%list count w
  = (c <- forEach_clip pre count ;; forEach_clip post c) w.
Proof.
  revert count w. induction pre as [| clip pre IH]; intros count w.
  - reflexivity.
  - cbn [app forEach_clip]. unfold bind.
    destruct (process_clip clip count w) as [[c1 | e] w1].
    + rewrite IH. reflexivity.
    + reflexivity.
Qed.

(** The loop over the whole queue. *)
Lemma forEach_clip_outcome (pending : list PendingClip.t) :
  forall (count : nat) (w : World),
  exists added,
    forEach_clip pending count w
    = (Normal (count + length added),
       mkWorld
         (State.with_snippets (added ++ State.snippets (state w))%list (state w))
         (storage w) (log w) (oracle w) (tick w + 2 * length added)) /\
    Forall (added_from pending (State.snippets (state w))) added /\
    NoDup (map Snippet.content added) /\
    (forall clip, In clip pending ->
       has_content (PendingClip.content clip)
         (added ++ State.snippets (state w))%list = true).
Proof.
  induction pending as [| clip pending IH]; intros count w.
  - exists []. split; [| split; [| split]].
    + destruct w as [[k s p i] sto l o t]. cbn.
      now rewrite !Nat.add_0_r.
    + constructor.
    + constructor.
    + intros clip [].
  - cbn [forEach_clip].
    pose proof (process_clip_outcome clip count w) as Hstep.
    destruct (has_content (PendingClip.content clip) (State.snippets (state w)))
      eqn:Hseen.
    + (* the clip is skipped *)
      rewrite (bind_normal _ _ _ _ _ Hstep).
      destruct (IH count w) as [added [Hrun [Hadded [Hnodup Hcover]]]].
      exists added. split; [exact Hrun |]. split; [| split].
      * eapply Forall_impl; [| exact Hadded].
        intros s (Ht & Hg & Hm & Hin & Hnew). repeat split; auto.
        cbn [map]. now right.
      * exact Hnodup.
      * intros c [<- | Hc]; [| now apply Hcover].
        rewrite has_content_app, Hseen. apply orb_true_r.
    + (* the clip becomes a snippet *)
      rewrite (bind_normal _ _ _ _ _ Hstep).
      set (new := auto_snippet (oracle w) (tick w) clip) in *.
      match goal with
      | |- context [forEach_clip pending (S count) ?w1] =>
          destruct (IH (S count) w1) as [added [Hrun [Hadded [Hnodup Hcover]]]]
      end.
      cbn [state storage log oracle tick State.with_snippets State.snippets
           State.key State.pendingEditId State.currentImageData] in *.
      exists (added ++ [new])%list. split; [| split; [| split]].
      * rewrite Hrun, length_app. cbn [length]. rewrite <- app_assoc.
        cbn [app]. unfold State.with_snippets.
        cbn [State.key State.pendingEditId State.currentImageData].
        f_equal; [f_equal; lia | f_equal; lia].
      * apply Forall_app. split.
        -- eapply Forall_impl; [| exact Hadded].
           intros s (Ht & Hg & Hm & Hin & Hnew). repeat split; auto.
           ++ cbn [map]. now right.
           ++ cbn in Hnew. apply orb_false_elim in Hnew. tauto.
        -- constructor; [| constructor].
           repeat split; auto. cbn. now left.
      * rewrite map_app. cbn [map].
        apply NoDup_app; [exact Hnodup | repeat constructor; intros [] |].
        intros c Hin [Hc | []].
        apply in_map_iff in Hin. destruct Hin as [s [Hs Hin]].
        rewrite Forall_forall in Hadded.
        destruct (Hadded s Hin) as (_ & _ & _ & _ & Hnew).
        cbn in Hnew. apply orb_false_elim in Hnew. destruct Hnew as [Hne _].
        apply String.eqb_neq in Hne. apply Hne. subst c. exact Hc.
      * intros c [<- | Hc].
        -- rewrite <- app_assoc. rewrite has_content_app. cbn.
           rewrite String.eqb_refl. cbn. apply orb_true_r.
        -- rewrite <- app_assoc. now apply Hcover.
Qed.

End ReconcileProperties.

Section ReconcileOnUnlock.
Context {platform : WebPlatform}.

(** [saveEncrypted] completes normally; it leaves the session state, the
    salt, the pending queue and the monitoring flag alone, only adds to the
    log, and draws twice from the oracle when a key is held. *)
Lemma saveEncrypted_effect (w : World) :
  exists sto' events,
    saveEncrypted w
    = (Normal tt,
       mkWorld (state w) sto' (log w ++ events)%list (oracle w)
         (tick w + match State.key (state w) with Some _ => 2 | None => 0 end)) /\
    Storage.pendingClips sto' = Storage.pendingClips (storage w) /\
    Storage.salt sto' = Storage.salt (storage w) /\
    Storage.monitoring sto' = Storage.monitoring (storage w) /\
    Forall (fun ev => forall p s, ev <> EvDeriveKey p s) events.
Proof.
  unfold saveEncrypted, CryptoCore.encrypt, chrome_storage_local_set_encryptedData.
  run_script. destruct (State.key (state w)) as [k |].
  - run_script. rewrite (Nat.add_comm (tick w) 2).
    destruct (storage_write_ok (oracle w) (S (tick w))).
    + eexists _, []. rewrite app_nil_r.
      split; [reflexivity | repeat split; constructor].
    + eexists _, [_].
      split; [reflexivity | repeat split; repeat constructor; discriminate].
  - exists (storage w), []. rewrite Nat.add_0_r, app_nil_r.
    destruct w; repeat split; constructor.
Qed.

(** A run of [processPendingClips] on a queue that is not empty. *)
Lemma processPendingClips_outcome (pending : list PendingClip.t) (w : World) :
  Storage.pendingClips (storage w) = Some pending ->
  pending <> [] ->
  exists added,
    Forall (added_from pending (State.snippets (state w))) added /\
    NoDup (map Snippet.content added) /\
    (forall clip, In clip pending ->
       has_content (PendingClip.content clip)
         (added ++ State.snippets (state w))%list = true) /\
    State.snippets (state (exec processPendingClips w))
      = (added ++ State.snippets (state w))%list /\
    State.key (state (exec processPendingClips w)) = State.key (state w) /\
    match added with
    | [] => processPendingClips w = (Normal tt, w)
    | _ :: _ =>
        let t := tick w + 2 * length added
                 + match State.key (state w) with Some _ => 2 | None => 0 end in
        if storage_write_ok (oracle w) t
        then result processPendingClips w = Normal tt /\
             Storage.pendingClips (storage (exec processPendingClips w)) = None
        else result processPendingClips w = Throw StorageError /\
             Storage.pendingClips (storage (exec processPendingClips w))
               = Some pending
    end.
Proof.
  intros Hpending Hnonempty.
  destruct (forEach_clip_outcome pending 0 w)
    as [added [Hloop [Hadded [Hnodup Hcover]]]].
  exists added. repeat (split; [assumption |]).
  assert (Hlen : (length pending =? 0)%nat = false).
  { destruct pending; [congruence | reflexivity]. }
  unfold exec, result, processPendingClips.
  rewrite (bind_normal _ _ w w (storage w)) by reflexivity.
  rewrite Hpending, Hlen.
  rewrite (bind_normal _ _ _ _ _ Hloop).
  destruct added as [| s added].
  - cbn. destruct w as [[k sn p i] sto l o t]. cbn.
    rewrite Nat.add_0_r. repeat split.
  - cbn [length Nat.add Nat.ltb Nat.leb].
    match goal with
    | |- context [bind saveEncrypted _ ?w1] =>
        destruct (saveEncrypted_effect w1) as [sto' [events [Hsave [Hq _]]]];
        rewrite (bind_normal _ _ _ _ _ Hsave)
    end.
    cbn [state storage log oracle tick State.with_snippets State.snippets
         State.key State.pendingEditId State.currentImageData] in *.
    unfold chrome_storage_local_remove_pendingClips. run_script.
    replace (tick w + S (length added + S (length added + 0)) +
             match State.key (state w) with Some _ => 2 | None => 0 end)
      with (tick w + 2 * S (length added) +
            match State.key (state w) with Some _ => 2 | None => 0 end)
      by (cbn; lia).
    destruct (storage_write_ok (oracle w) _); cbn.
    + repeat split.
    + rewrite Hq. repeat split; assumption.
Qed.

End ReconcileOnUnlock.

Section UnlockThenReconcile.
Context {platform : WebPlatform}.

(** [processPendingClips] only adds to the log, and no key derivation. *)
Lemma processPendingClips_log (w : World) :
  exists events,
    log (exec processPendingClips w) = (log w ++ events)%list /\
    Forall not_a_derivation events.
Proof.
  unfold exec, processPendingClips.
  rewrite (bind_normal _ _ w w (storage w)) by reflexivity.
  destruct (Storage.pendingClips (storage w)) as [pending |];
    [| exists []; rewrite app_nil_r; split; [reflexivity | constructor]].
  destruct (length pending =? 0)%nat;
    [exists []; rewrite app_nil_r; split; [reflexivity | constructor] |].
  destruct (forEach_clip_outcome pending 0 w) as [added [Hloop _]].
  rewrite (bind_normal _ _ _ _ _ Hloop).
  destruct (0 <? 0 + length added)%nat;
    [| exists []; rewrite app_nil_r; split; [reflexivity | constructor]].
  match goal with
  | |- context [bind saveEncrypted _ ?w1] =>
      destruct (saveEncrypted_effect w1)
        as [sto' [events [Hsave (_ & _ & _ & Hevents)]]];
      rewrite (bind_normal _ _ _ _ _ Hsave)
  end.
  unfold chrome_storage_local_remove_pendingClips. run_script.
  destruct (storage_write_ok (oracle w) _); cbn.
  - eexists. rewrite <- app_assoc. split; [reflexivity |].
    apply Forall_app. split; [exact Hevents |].
    repeat constructor. discriminate.
  - exists events. split; [reflexivity | exact Hevents].
Qed.

Opaque CryptoCore.decrypt processPendingClips.

(** An unlock whose decryption succeeds: the key and the collection are
    adopted, then the pending queue is reconciled; an exception from there
    ends in the [catch] block like any other. *)
Lemma handleLogin_success (pin : string) (saltArr : list Z) (c : Collection)
    (w : World) :
  pin <> "" ->
  Storage.salt (storage w) = Some saltArr ->
  let key := CryptoCore.subtle_deriveKey pin (Uint8Array_of_array saltArr) in
  result (CryptoCore.decrypt (Storage.encryptedData (storage w)) key) w = Normal c ->
  let w1 :=
    mkWorld (State.with_snippets c (State.with_key (Some key) (state w)))
      (storage w)
      (log w ++ [EvDom "preventDefault"; EvSetLoading true;
                 EvDeriveKey pin (Uint8Array_of_array saltArr)])%list
      (oracle w) (tick w) in
  handleLogin pin w =
  match processPendingClips w1 with
  | (Normal _, w2) =>
      (Normal tt,
       with_log (log w2 ++ [EvShowView dashboard; EvRenderSnippets;
                            EvDom "auth-pin.value = ''";
                            EvSetLoading false])%list w2)
  | (Throw e, w2) =>
      (Normal tt,
       with_log (log w2 ++ [EvConsoleError e;
                            EvDom "auth-pin.classList.add('shake')";
                            EvDom "auth-pin.value = ''";
                            EvToast (Msg "Incorrect PIN") "error";
                            EvSetLoading false])%list w2)
  end.
Proof.
  intros Hpin Hsalt key Hdec w1.
  apply String.eqb_neq in Hpin.
  unfold handleLogin, CryptoCore.deriveKey. run_script.
  rewrite Hpin. run_script. rewrite Hsalt. run_script.
  rewrite (decrypt_at _ _ _ w). fold key. rewrite Hdec. run_script.
  rewrite <- !app_assoc. cbn [app]. fold w1.
  destruct (processPendingClips w1) as [[[] | e] w2]; run_script;
    rewrite <- !app_assoc; reflexivity.
Qed.

Transparent CryptoCore.decrypt processPendingClips.

(** Nothing is added exactly when every pending clip is already there. *)
Lemma nothing_added_iff (pending : list PendingClip.t) (before added : Collection) :
  Forall (added_from pending before) added ->
  (forall clip, In clip pending ->
     has_content (PendingClip.content clip) (added ++ before)%list = true) ->
  added = [] <->
  forallb (fun clip => has_content (PendingClip.content clip) before) pending
    = true.
Proof.
  intros Hadded Hcover. rewrite forallb_forall. split.
  - intros -> clip Hin. exact (Hcover clip Hin).
  - intros Hall. destruct added as [| s added]; [reflexivity | exfalso].
    inversion Hadded as [| ? ? (_ & _ & _ & Hin & Hnew) _]; subst.
    apply in_map_iff in Hin. destruct Hin as [clip [Hc Hin]].
    specialize (Hall clip Hin). rewrite Hc in Hall. congruence.
Qed.

End UnlockThenReconcile.

Section ReconciliationClaims.
Context {platform : WebPlatform}.

(** C7. Pending-queue reconciliation. Each pending clip, in the order of
    the queue, is tested against the collection as it stands at its turn:
    when some snippet has exactly its content the clip is skipped, otherwise a
    new text snippet tagged [auto] with that content is put at the front. For
    a whole queue, the collection afterwards is the added snippets followed
    by the collection before; each added snippet is a text snippet tagged
    [auto] whose content is a pending clip's and was not in the collection,
    no content is added twice, and every pending clip's content is present.
    With pending clips foo and bar, an envelope that decrypts to the empty
    collection and storage writes that succeed, unlocking gives exactly the
    two new snippets and no pending queue in storage. *)
Theorem pending_reconciliation :
  (forall clip count w,
      let before := State.snippets (state w) in
      let w' := exec (process_clip clip count) w in
      if has_content (PendingClip.content clip) before
      then w' = w /\ result (process_clip clip count) w = Normal count
      else exists id date,
          State.snippets (state w')
          = Snippet.mk id Snippet.text (PendingClip.content clip)
              Snippet.absent ["auto"] date :: before /\
          result (process_clip clip count) w = Normal (S count)) /\
  (forall pre clip post count w,
      forEach_clip (pre ++ clip :: post)%list count w
      = (c1 <- forEach_clip pre count ;;
         c2 <- process_clip clip c1 ;;
         forEach_clip post c2) w) /\
  (forall pending w,
      Storage.pendingClips (storage w) = Some pending ->
      pending <> [] ->
      let before := State.snippets (state w) in
      exists added,
        State.snippets (state (exec processPendingClips w))
          = (added ++ before)%list /\
        Forall (added_from pending before) added /\
        NoDup (map Snippet.content added) /\
        (forall clip, In clip pending ->
           has_content (PendingClip.content clip) (added ++ before)%list = true)) /\
  (forall pin saltArr tFoo tBar w,
      pin <> "" ->
      Storage.salt (storage w) = Some saltArr ->
      let key := CryptoCore.subtle_deriveKey pin (Uint8Array_of_array saltArr) in
      result (CryptoCore.decrypt (Storage.encryptedData (storage w)) key) w
        = Normal [] ->
      Storage.pendingClips (storage w)
        = Some [PendingClip.mk "foo" tFoo; PendingClip.mk "bar" tBar] ->
      (forall t, storage_write_ok (oracle w) t = true) ->
      let w' := exec (handleLogin pin) w in
      State.key (state w') = Some key /\
      State.snippets (state w')
        = [Snippet.mk (randomUUID_at (oracle w) (2 + tick w)) Snippet.text "bar"
             Snippet.absent ["auto"] (Date_now_at (oracle w) (3 + tick w));
           Snippet.mk (randomUUID_at (oracle w) (tick w)) Snippet.text "foo"
             Snippet.absent ["auto"] (Date_now_at (oracle w) (1 + tick w))] /\
      Storage.pendingClips (storage w') = None).
Proof.
  split; [| split; [| split]].
  - intros clip count w before w'. subst before w'. unfold exec, result.
    rewrite process_clip_outcome.
    destruct (has_content _ _).
    + split; reflexivity.
    + do 2 eexists. split; reflexivity.
  - intros pre clip post count w. rewrite forEach_clip_app. reflexivity.
  - intros pending w Hpending Hnonempty before.
    destruct (processPendingClips_outcome pending w Hpending Hnonempty)
      as [added (Hadded & Hnodup & Hcover & Hsn & _)].
    exists added. auto.
  - intros pin saltArr tFoo tBar w Hpin Hsalt key Hdec Hpending Hok w'.
    subst w'. unfold exec.
    rewrite (handleLogin_success pin saltArr [] w Hpin Hsalt Hdec).
    fold key.
    unfold processPendingClips, saveEncrypted, CryptoCore.encrypt,
      chrome_storage_local_set_encryptedData,
      chrome_storage_local_remove_pendingClips.
    run_script. rewrite Hpending. unfold process_clip. run_script.
    rewrite (Hok (S (S (S (S (S (tick w))))))). run_script.
    rewrite (Hok (S (S (S (S (S (S (tick w)))))))). run_script.
    repeat split.
Qed.

End ReconciliationClaims.

Section QueueClearing.
Context {platform : WebPlatform}.

(** C2, as the code has it. On an unlock whose decryption succeeds, with a
    pending queue that is not empty: when every pending clip's content is
    already the content of a snippet, nothing is added and the storage, the
    pending queue included, is left as it was; when some clip is new, the
    pending queue is removed from storage, provided the storage writes
    succeed. *)
Theorem pending_queue_cleared_only_when_added
    (pin : string) (saltArr : list Z) (c : Collection)
    (pending : list PendingClip.t) (w : World) :
  pin <> "" ->
  Storage.salt (storage w) = Some saltArr ->
  let key := CryptoCore.subtle_deriveKey pin (Uint8Array_of_array saltArr) in
  result (CryptoCore.decrypt (Storage.encryptedData (storage w)) key) w = Normal c ->
  Storage.pendingClips (storage w) = Some pending ->
  pending <> [] ->
  let w' := exec (handleLogin pin) w in
  State.key (state w') = Some key /\
  if forallb (fun clip => has_content (PendingClip.content clip) c) pending
  then storage w' = storage w /\ State.snippets (state w') = c
  else (forall t, storage_write_ok (oracle w) t = true) ->
       Storage.pendingClips (storage w') = None.
Proof.
  intros Hpin Hsalt key Hdec Hpending Hnonempty w'. subst w'. unfold exec.
  rewrite (handleLogin_success pin saltArr c w Hpin Hsalt Hdec). fold key.
  set (w1 := mkWorld _ _ _ _ _).
  destruct (processPendingClips_outcome pending w1 Hpending Hnonempty)
    as [added (Hadded & _ & Hcover & Hsn & Hkey & Hrun)].
  pose proof (nothing_added_iff pending c added Hadded Hcover) as Hnil.
  unfold exec, result in *.
  destruct (processPendingClips w1) as [r w2] eqn:Hproc.
  cbn [fst snd] in *.
  assert (Hkey' : State.key (state (snd
            match r with
            | Normal _ =>
                (Normal tt,
                 with_log (log w2 ++ [EvShowView dashboard; EvRenderSnippets;
                                      EvDom "auth-pin.value = ''";
                                      EvSetLoading false])%list w2)
            | Throw e =>
                (Normal tt,
                 with_log (log w2 ++ [EvConsoleError e;
                                      EvDom "auth-pin.classList.add('shake')";
                                      EvDom "auth-pin.value = ''";
                                      EvToast (Msg "Incorrect PIN") "error";
                                      EvSetLoading false])%list w2)
            end)) = Some key).
  { destruct r; cbn; exact Hkey. }
  split; [exact Hkey' |].
  destruct (forallb _ pending).
  - assert (added = []) as -> by now apply Hnil.
    injection Hrun as -> ->. cbn. split; reflexivity.
  - destruct added as [| s added]; [now destruct Hnil as [Hnil _]; discriminate Hnil |].
    intros Hok. cbv zeta in Hrun. cbn [oracle w1] in Hrun. rewrite Hok in Hrun.
    destruct Hrun as [-> Hcleared]. cbn. exact Hcleared.
Qed.

End QueueClearing.

(** ** Validation of the PIN before key derivation *)

Lemma test_six_digits_spec (pin : string) :
  test_six_digits pin = true <->
  String.length pin = 6 /\
  forall c, In c (list_ascii_of_string pin) ->
            (48 <= nat_of_ascii c <= 57)%nat.
Proof.
  unfold test_six_digits, is_digit.
  rewrite andb_true_iff, Nat.eqb_eq, forallb_forall.
  split; intros [Hlen Hdigits]; (split; [exact Hlen |]); intros c Hc;
    specialize (Hdigits c Hc).
  - apply andb_true_iff in Hdigits. destruct Hdigits as [H1 H2].
    apply Nat.leb_le in H1, H2. lia.
  - apply andb_true_iff. split; apply Nat.leb_le; lia.
Qed.

Section ValidationProperties.
Context {platform : WebPlatform}.

Lemma handleSetup_derivations (pin confirm : string) (w : World) (p : string)
    (s : bytes) :
  In (EvDeriveKey p s) (log (exec (handleSetup pin confirm) w)) ->
  In (EvDeriveKey p s) (log w) \/ (p = pin /\ test_six_digits pin = true).
Proof.
  unfold handleSetup, CryptoCore.generateSalt, CryptoCore.deriveKey,
    CryptoCore.encrypt, chrome_storage_local_set_salt_encryptedData.
  destruct (test_six_digits pin) eqn:Hvalid;
    destruct (pin =? confirm) eqn:Hconfirm;
    destruct (storage_write_ok (oracle w) (S (S (tick w)))) eqn:Hwrite;
    run_script; rewrite ?Hvalid, ?Hconfirm; cbn; rewrite ?Hwrite; cbn;
    rewrite <- ?app_assoc; intros H; derivation_in_log H.
Qed.

Lemma handleChangePin_derivations (p1 p2 : string) (w : World) (p : string)
    (s : bytes) :
  In (EvDeriveKey p s) (log (exec (handleChangePin p1 p2) w)) ->
  In (EvDeriveKey p s) (log w) \/ (p = p1 /\ test_six_digits p1 = true).
Proof.
  unfold handleChangePin, CryptoCore.generateSalt, CryptoCore.deriveKey,
    CryptoCore.encrypt, chrome_storage_local_set_salt_encryptedData.
  destruct (test_six_digits p1) eqn:Hvalid;
    destruct (p1 =? p2) eqn:Hconfirm;
    destruct (storage_write_ok (oracle w) (S (S (tick w)))) eqn:Hwrite;
    run_script; rewrite ?Hvalid, ?Hconfirm; cbn; rewrite ?Hwrite; cbn;
    rewrite <- ?app_assoc; intros H; derivation_in_log H.
Qed.

Lemma handleSetup_rejects (pin confirm : string) (w : World) :
  test_six_digits pin = false ->
  handleSetup pin confirm w = (Normal tt, with_log (log w ++ rejection)%list w).
Proof.
  intros Hvalid. unfold handleSetup. run_script. rewrite Hvalid. cbn.
  now rewrite <- app_assoc.
Qed.

Lemma handleChangePin_rejects (p1 p2 : string) (w : World) :
  test_six_digits p1 = false ->
  handleChangePin p1 p2 w = (Normal tt, with_log (log w ++ rejection)%list w).
Proof.
  intros Hvalid. unfold handleChangePin. run_script. rewrite Hvalid. cbn.
  now rewrite <- app_assoc.
Qed.

Opaque CryptoCore.decrypt.

(** Whatever the PIN, as long as it is not empty and a salt is stored,
    [handleLogin] derives a key from it. *)
Lemma handleLogin_derives (pin : string) (saltArr : list Z) (w : World) :
  pin <> "" ->
  Storage.salt (storage w) = Some saltArr ->
  exists rest,
    log (exec (handleLogin pin) w)
    = (log w ++ [EvDom "preventDefault"; EvSetLoading true;
                 EvDeriveKey pin (Uint8Array_of_array saltArr)] ++ rest)%list.
Proof.
  intros Hpin Hsalt.
  destruct (result (CryptoCore.decrypt (Storage.encryptedData (storage w))
                      (CryptoCore.subtle_deriveKey pin (Uint8Array_of_array saltArr)))
              w) as [c | e] eqn:Hdec.
  - unfold exec. rewrite (handleLogin_success pin saltArr c w Hpin Hsalt Hdec).
    set (w1 := mkWorld _ _ _ _ _).
    destruct (processPendingClips_log w1) as [events [Hlog _]].
    unfold exec in Hlog.
    destruct (processPendingClips w1) as [[[] | e] w2]; cbn in *;
      rewrite Hlog, <- !app_assoc; cbn; eexists; reflexivity.
  - apply String.eqb_neq in Hpin.
    unfold handleLogin, CryptoCore.deriveKey. run_script.
    rewrite Hpin. run_script. rewrite Hsalt. run_script.
    rewrite (decrypt_at _ _ _ w), Hdec. run_script.
    rewrite <- !app_assoc. cbn. eexists. reflexivity.
Qed.

Transparent CryptoCore.decrypt.

(** C4, as the code has it. Setup and rekey test the PIN first: a key
    derivation logged by them is of the given PIN and that PIN is exactly six
    ASCII digits, and with any other PIN they only show the rejection toast
    and change nothing. Unlock does not test the format: it returns at once
    on the empty PIN, and from any other PIN, six digits or not, it derives a
    key as soon as a salt is stored. *)
Theorem pin_checked_before_derivation_on_setup_and_rekey :
  (forall pin confirm w p s,
      In (EvDeriveKey p s) (log (exec (handleSetup pin confirm) w)) ->
      In (EvDeriveKey p s) (log w) \/
      (p = pin /\ String.length pin = 6 /\
       forall c, In c (list_ascii_of_string pin) ->
                 (48 <= nat_of_ascii c <= 57)%nat)) /\
  (forall p1 p2 w p s,
      In (EvDeriveKey p s) (log (exec (handleChangePin p1 p2) w)) ->
      In (EvDeriveKey p s) (log w) \/
      (p = p1 /\ String.length p1 = 6 /\
       forall c, In c (list_ascii_of_string p1) ->
                 (48 <= nat_of_ascii c <= 57)%nat)) /\
  (forall pin confirm w,
      test_six_digits pin = false ->
      handleSetup pin confirm w
      = (Normal tt, with_log (log w ++ rejection)%list w) /\
      handleChangePin pin confirm w
      = (Normal tt, with_log (log w ++ rejection)%list w)) /\
  (forall w,
      handleLogin "" w
      = (Normal tt, with_log (log w ++ [EvDom "preventDefault"])%list w)) /\
  (forall pin saltArr w,
      pin <> "" ->
      Storage.salt (storage w) = Some saltArr ->
      In (EvDeriveKey pin (Uint8Array_of_array saltArr))
         (log (exec (handleLogin pin) w))).
Proof.
  split; [| split; [| split; [| split]]].
  - intros pin confirm w p s H.
    destruct (handleSetup_derivations pin confirm w p s H) as [Hold | [-> Hvalid]];
      [now left | right].
    split; [reflexivity | now apply test_six_digits_spec].
  - intros p1 p2 w p s H.
    destruct (handleChangePin_derivations p1 p2 w p s H) as [Hold | [-> Hvalid]];
      [now left | right].
    split; [reflexivity | now apply test_six_digits_spec].
  - intros pin confirm w Hvalid. split.
    + now apply handleSetup_rejects.
    + now apply handleChangePin_rejects.
  - reflexivity.
  - intros pin saltArr w Hpin Hsalt.
    destruct (handleLogin_derives pin saltArr w Hpin Hsalt) as [rest ->].
    apply in_or_app. right. cbn. auto.
Qed.

End ValidationProperties.

(** * Concrete runs *)

#[local] Existing Instance Scenario.platform.

(** The collection with the one snippet foo, under the key of PIN 123456. *)
Lemma encrypt_decrypt_roundtrip_witness :
  (forall iv,
      AES_GCM_decrypt Scenario.key_123456 iv
        (AES_GCM_encrypt Scenario.key_123456 iv
           (TextEncoder_encode (JSON_stringify [Scenario.foo_snippet])))
      = Some (TextEncoder_encode (JSON_stringify [Scenario.foo_snippet]))) /\
  JSON_parse
    (TextDecoder_decode (TextEncoder_encode (JSON_stringify [Scenario.foo_snippet])))
    = Some [Scenario.foo_snippet] /\
  exists envelope w',
    CryptoCore.encrypt [Scenario.foo_snippet] Scenario.key_123456 Scenario.fresh
    = (Normal envelope, w') /\
    forall w1,
      CryptoCore.decrypt envelope Scenario.key_123456 w1
      = (Normal [Scenario.foo_snippet], w1).
Proof.
  assert (Hcipher : forall iv,
      AES_GCM_decrypt Scenario.key_123456 iv
        (AES_GCM_encrypt Scenario.key_123456 iv
           (TextEncoder_encode (JSON_stringify [Scenario.foo_snippet])))
      = Some (TextEncoder_encode (JSON_stringify [Scenario.foo_snippet])))
    by (intros iv; vm_compute; reflexivity).
  assert (Hjson : JSON_parse
    (TextDecoder_decode (TextEncoder_encode (JSON_stringify [Scenario.foo_snippet])))
    = Some [Scenario.foo_snippet]) by (vm_compute; reflexivity).
  exact (conj Hcipher (conj Hjson
           (encrypt_decrypt_roundtrip [Scenario.foo_snippet] Scenario.key_123456
              Scenario.fresh Hcipher Hjson))).
Defined.

(** On the vault set up with 123456, the PINs 654321 and abc are wrong. *)
Lemma wrong_pin_idempotence_witness :
  State.key (state Scenario.locked_empty) = None /\
  (forall pin, In pin ["654321"; "abc"; "654321"] ->
               wrong_pin (storage Scenario.locked_empty) pin) /\
  let w' := run_all (map handleLogin ["654321"; "abc"; "654321"])
              Scenario.locked_empty in
  storage w' = storage Scenario.locked_empty /\
  State.key (state w') = None /\
  State.snippets (state w') = State.snippets (state Scenario.locked_empty).
Proof.
  assert (Hlocked : State.key (state Scenario.locked_empty) = None)
    by reflexivity.
  assert (Hwrong : forall pin, In pin ["654321"; "abc"; "654321"] ->
                     wrong_pin (storage Scenario.locked_empty) pin).
  { intros pin [<- | [<- | [<- | []]]]; intros saltArr w Hsalt;
      vm_compute in Hsalt; injection Hsalt as <-;
      eexists; vm_compute; reflexivity. }
  exact (conj Hlocked (conj Hwrong
           (wrong_pin_idempotence ["654321"; "abc"; "654321"]
              Scenario.locked_empty Hlocked Hwrong))).
Defined.

(** C2 fails as stated: the vault holds one snippet foo, the pending queue
    holds one clip foo; unlocking with the right PIN succeeds, adds nothing,
    and the pending queue is still in storage. *)
Lemma pending_queue_kept_when_nothing_added :
  let w := Scenario.locked_with_foo_pending_foo in
  let w' := exec (handleLogin "123456") w in
  Storage.pendingClips (storage w) = Some [PendingClip.mk "foo" 1700000000007] /\
  result (CryptoCore.decrypt (Storage.encryptedData (storage w))
            Scenario.key_123456) w = Normal [Scenario.foo_snippet] /\
  State.key (state w') = Some Scenario.key_123456 /\
  State.snippets (state w') = [Scenario.foo_snippet] /\
  Storage.pendingClips (storage w') = Some [PendingClip.mk "foo" 1700000000007] /\
  Storage.pendingClips (storage w') <> None.
Proof. vm_compute. repeat split. discriminate. Qed.

(** The same unlock, through the theorem: every pending clip is already a
    snippet, so the storage is left as it was. *)
Lemma pending_queue_cleared_only_when_added_witness :
  "123456" <> "" /\
  Storage.salt (storage Scenario.locked_with_foo_pending_foo)
    = Some Scenario.stored_salt /\
  result (CryptoCore.decrypt
            (Storage.encryptedData (storage Scenario.locked_with_foo_pending_foo))
            Scenario.key_123456) Scenario.locked_with_foo_pending_foo
    = Normal [Scenario.foo_snippet] /\
  Storage.pendingClips (storage Scenario.locked_with_foo_pending_foo)
    = Some [PendingClip.mk "foo" 1700000000007] /\
  [PendingClip.mk "foo" 1700000000007] <> [] /\
  let w' := exec (handleLogin "123456") Scenario.locked_with_foo_pending_foo in
  State.key (state w') = Some Scenario.key_123456 /\
  storage w' = storage Scenario.locked_with_foo_pending_foo /\
  State.snippets (state w') = [Scenario.foo_snippet].
Proof.
  assert (Hpin : "123456" <> "") by discriminate.
  assert (Hsalt : Storage.salt (storage Scenario.locked_with_foo_pending_foo)
                  = Some Scenario.stored_salt) by (vm_compute; reflexivity).
  assert (Hdec : result (CryptoCore.decrypt
            (Storage.encryptedData (storage Scenario.locked_with_foo_pending_foo))
            Scenario.key_123456) Scenario.locked_with_foo_pending_foo
    = Normal [Scenario.foo_snippet]) by (vm_compute; reflexivity).
  assert (Hpending :
            Storage.pendingClips (storage Scenario.locked_with_foo_pending_foo)
            = Some [PendingClip.mk "foo" 1700000000007])
    by (vm_compute; reflexivity).
  assert (Hnonempty : [PendingClip.mk "foo" 1700000000007] <> []) by discriminate.
  exact (conj Hpin (conj Hsalt (conj Hdec (conj Hpending (conj Hnonempty
           (pending_queue_cleared_only_when_added "123456" Scenario.stored_salt
              [Scenario.foo_snippet] [PendingClip.mk "foo" 1700000000007]
              Scenario.locked_with_foo_pending_foo
              Hpin Hsalt Hdec Hpending Hnonempty)))))).
Defined.

(** C4 fails as stated: unlocking with abc derives a key from abc. *)
Lemma unlock_derives_key_from_malformed_pin :
  let w := Scenario.locked_empty in
  let derivation := EvDeriveKey "abc" (Uint8Array_of_array Scenario.stored_salt) in
  test_six_digits "abc" = false /\
  ~ In derivation (log w) /\
  In derivation (log (exec (handleLogin "abc") w)).
Proof.
  vm_compute. split; [reflexivity | split].
  - intros H. repeat (destruct H as [H | H]; try discriminate H). exact H.
  - do 8 right. left. reflexivity.
Qed.

(** A PIN with a letter in it is refused by setup and by rekey. *)
Lemma pin_checked_before_derivation_witness :
  test_six_digits "12a456" = false /\
  handleSetup "12a456" "12a456" Scenario.fresh
  = (Normal tt, with_log (log Scenario.fresh ++ rejection)%list Scenario.fresh) /\
  handleChangePin "12a456" "12a456" Scenario.fresh
  = (Normal tt, with_log (log Scenario.fresh ++ rejection)%list Scenario.fresh).
Proof.
  assert (Hbad : test_six_digits "12a456" = false) by reflexivity.
  exact (conj Hbad
           (proj1 (proj2 (proj2 pin_checked_before_derivation_on_setup_and_rekey))
              "12a456" "12a456" Scenario.fresh Hbad)).
Defined.

(** The scenario of the two pending clips foo and bar on the empty vault. *)
Lemma pending_reconciliation_witness :
  "123456" <> "" /\
  Storage.salt (storage Scenario.locked_empty_pending_foo_bar)
    = Some Scenario.stored_salt /\
  result (CryptoCore.decrypt
            (Storage.encryptedData (storage Scenario.locked_empty_pending_foo_bar))
            Scenario.key_123456) Scenario.locked_empty_pending_foo_bar
    = Normal [] /\
  Storage.pendingClips (storage Scenario.locked_empty_pending_foo_bar)
    = Some [PendingClip.mk "foo" 1700000000005;
            PendingClip.mk "bar" 1700000000003] /\
  (forall t, storage_write_ok (oracle Scenario.locked_empty_pending_foo_bar) t
             = true) /\
  let w' := exec (handleLogin "123456") Scenario.locked_empty_pending_foo_bar in
  State.key (state w') = Some Scenario.key_123456 /\
  State.snippets (state w')
    = [Snippet.mk "uuid-9" Snippet.text "bar" Snippet.absent ["auto"] 1700000000010;
       Snippet.mk "uuid-7" Snippet.text "foo" Snippet.absent ["auto"] 1700000000008] /\
  Storage.pendingClips (storage w') = None.
Proof.
  assert (Hpin : "123456" <> "") by discriminate.
  assert (Hsalt : Storage.salt (storage Scenario.locked_empty_pending_foo_bar)
                  = Some Scenario.stored_salt) by (vm_compute; reflexivity).
  assert (Hdec : result (CryptoCore.decrypt
            (Storage.encryptedData (storage Scenario.locked_empty_pending_foo_bar))
            Scenario.key_123456) Scenario.locked_empty_pending_foo_bar
    = Normal []) by (vm_compute; reflexivity).
  assert (Hpending :
            Storage.pendingClips (storage Scenario.locked_empty_pending_foo_bar)
            = Some [PendingClip.mk "foo" 1700000000005;
                    PendingClip.mk "bar" 1700000000003])
    by (vm_compute; reflexivity).
  assert (Hok : forall t,
             storage_write_ok (oracle Scenario.locked_empty_pending_foo_bar) t
             = true) by (intros t; reflexivity).
  exact (conj Hpin (conj Hsalt (conj Hdec (conj Hpending (conj Hok
           (proj2 (proj2 (proj2 pending_reconciliation))
              "123456" Scenario.stored_salt 1700000000005%Z 1700000000003%Z
              Scenario.locked_empty_pending_foo_bar
              Hpin Hsalt Hdec Hpending Hok)))))).
Defined.

(** A full queue: twenty clips, clip19 at the head and clip0 the oldest. *)
Lemma pending_queue_insertion_witness :
  let w := Scenario.full_queue in
  (length (queue (storage w)) <= 20)%nat /\
  (forall head rest,
      queue (storage w) = head :: rest -> PendingClip.content head <> "new") /\
  storage_write_ok (oracle w) (S (tick w)) = true /\
  (length (queue (storage (exec (addToPending "new") w))) <= 20)%nat /\
  exec (addToPending "clip19") w = w /\
  (exists timestamp,
      queue (storage (exec (addToPending "new") w))
      = PendingClip.mk "new" timestamp :: removelast (queue (storage w))) /\
  (length (queue (storage
     (run_all (map addToPending ["a"; "b"; "b"; "c"]) w))) <= 20)%nat.
Proof.
  intros w.
  assert (Hlen : (length (queue (storage w)) <= 20)%nat)
    by (vm_compute; repeat constructor).
  assert (Hother : forall head rest,
             queue (storage w) = head :: rest ->
             PendingClip.content head <> "new").
  { intros head rest Hq. vm_compute in Hq. injection Hq as <- _. discriminate. }
  assert (Hwrite : storage_write_ok (oracle w) (S (tick w)) = true)
    by reflexivity.
  assert (Hsame : PendingClip.content (PendingClip.mk "clip19" 1700000000041)
                  = "clip19") by reflexivity.
  assert (Hhead : queue (storage w)
                  = PendingClip.mk "clip19" 1700000000041
                      :: tl (queue (storage w))) by (vm_compute; reflexivity).
  pose proof (pending_queue_insertion w Hlen) as [Hone Hmany].
  pose proof (proj1 (Hone "new")) as Hbound.
  pose proof (proj1 (proj2 (Hone "clip19")) _ _ Hhead Hsame) as Hdup.
  pose proof (proj2 (proj2 (Hone "new")) Hother Hwrite) as Hdrop.
  assert (Hfull : (length (queue (storage w)) =? 20)%nat = true)
    by (vm_compute; reflexivity).
  rewrite Hfull in Hdrop.
  exact (conj Hlen (conj Hother (conj Hwrite (conj Hbound (conj Hdup
           (conj Hdrop (Hmany ["a"; "b"; "b"; "c"]))))))).
Defined.

(** C9 fails as stated: with no key held, saving a snippet throws nothing;
    the snippet is in memory, the storage is as before, and the toast reports
    success. *)
Lemma saveSnippet_while_locked_throws_nothing :
  let w := Scenario.locked_empty in
  let w' := exec (saveSnippet "hello") w in
  State.key (state w) = None /\
  result (saveSnippet "hello") w = Normal tt /\
  (forall e, result (saveSnippet "hello") w <> Throw e) /\
  storage w' = storage w /\
  State.snippets (state w')
    = [Snippet.mk "uuid-3" Snippet.text "hello" Snippet.null [] 1700000000004] /\
  last (log w') EvReload = EvToast (Msg "Snippet saved securely") "success".
Proof. vm_compute. repeat split. discriminate. Qed.

(** The same locked vault, through the theorem. *)
Lemma mutate_while_locked_is_silent_witness :
  let w := Scenario.locked_empty in
  State.key (state w) = None /\
  saveEncrypted w = (Normal tt, w) /\
  result (saveSnippet "hello") w = Normal tt /\
  storage (exec (saveSnippet "hello") w) = storage w /\
  result (deleteSnippet "uuid-3" true) w = Normal tt /\
  storage (exec (deleteSnippet "uuid-3" true) w) = storage w.
Proof.
  intros w.
  assert (Hlocked : State.key (state w) = None) by reflexivity.
  pose proof (mutate_while_locked_is_silent w Hlocked)
    as (Hsave & Hsnippet & Hdelete & _).
  exact (conj Hlocked (conj Hsave
           (conj (proj1 (Hsnippet "hello"))
              (conj (proj2 (Hsnippet "hello"))
                 (conj (proj1 (Hdelete "uuid-3" true))
                       (proj2 (Hdelete "uuid-3" true))))))).
Defined.

(** Monitoring switched on, one clip pending, then a reset. *)
Lemma reset_erases_entire_storage_witness :
  let w := Scenario.monitoring_on in
  let w' := exec handleReset w in
  Storage.monitoring (storage w) = Some true /\
  storage_write_ok (oracle w) (tick w) = true /\
  result handleReset w = Normal tt /\
  storage w' = Storage.empty /\
  Storage.monitoring (storage w') = None /\
  monitoring_enabled (storage w') = false /\
  state w' = State.initial /\
  log w' = (log w ++ [EvReload; EvDom "toggle-monitor.checked = false";
                      EvShowView onboarding])%list /\
  forall clipboardText, copy_listener clipboardText w' = (Normal tt, w').
Proof.
  intros w w'.
  assert (Hon : Storage.monitoring (storage w) = Some true) by reflexivity.
  assert (Hwrite : storage_write_ok (oracle w) (tick w) = true) by reflexivity.
  exact (conj Hon (conj Hwrite (reset_erases_entire_storage w Hwrite))).
Defined.

(** A change of PIN whose storage write is rejected: the vault and the
    session key stay as they were, and the user is told. *)
Example rekey_write_rejected :
  let w := mkWorld (state Scenario.unlocked_empty) (storage Scenario.unlocked_empty)
             [] (Toy.oracle (fun t => negb (t =? 5)%nat)) 3 in
  let w' := exec (handleChangePin "999999" "999999") w in
  storage w' = storage w /\
  State.key (state w') = Some Scenario.key_123456 /\
  In (EvToast (Msg "Error changing PIN") "error") (log w').
Proof. vm_compute. repeat split. do 3 right. left. reflexivity. Qed.

(** A change of PIN that goes through, the popup closed, then unlocking:
    the new PIN opens the vault on the same collection, the old one does
    not. *)
Example rekey_then_unlock :
  let opened := exec (handleLogin "123456") Scenario.locked_with_foo in
  let rekeyed := Scenario.close_popup
                   (exec (handleChangePin "999999" "999999") opened) in
  State.snippets (state opened) = [Scenario.foo_snippet] /\
  State.snippets (state (exec (handleLogin "999999") rekeyed))
    = [Scenario.foo_snippet] /\
  State.key (state (exec (handleLogin "999999") rekeyed)) <> None /\
  State.key (state (exec (handleLogin "123456") rekeyed)) = None /\
  last (log (exec (handleLogin "123456") rekeyed)) EvReload = EvSetLoading false /\
  In (EvToast (Msg "Incorrect PIN") "error")
     (skipn (length (log rekeyed)) (log (exec (handleLogin "123456") rekeyed))).
Proof.
  vm_compute. repeat split; try discriminate.
  do 6 right. left. reflexivity.
Qed.

(** * Further properties *)

(** ** White space *)

Lemma trimStart_blank (s : string) : blank s = true -> trimStart s = "".
Proof.
  unfold blank. induction s as [| c s IH]; cbn; [reflexivity |].
  intros H. apply andb_true_iff in H. destruct H as [Hc Hs].
  rewrite Hc. auto.
Qed.

Lemma trimStart_not_blank (s : string) :
  blank s = false ->
  exists c rest, trimStart s = String c rest /\ is_white_space c = false.
Proof.
  unfold blank. induction s as [| c s IH]; cbn; [discriminate |].
  destruct (is_white_space c) eqn:Hc; cbn.
  - exact IH.
  - intros _. exists c, s. auto.
Qed.

Lemma reverse_String (c : ascii) (s : string) :
  reverse (String c s) = reverse s ++ String c "".
Proof.
  unfold reverse. cbn [list_ascii_of_string rev].
  generalize (rev (list_ascii_of_string s)) as l.
  induction l as [| a l IH]; cbn; [reflexivity | now rewrite IH].
Qed.

Lemma trimStart_app_not_blank (s : string) (c : ascii) (t : string) :
  is_white_space c = false ->
  exists a rest, trimStart (s ++ String c t) = String a rest.
Proof.
  intros Hc. induction s as [| b s IH]; cbn.
  - rewrite Hc. eauto.
  - destruct (is_white_space b); eauto.
Qed.

Lemma append_eq_empty (s t : string) : s ++ t = "" -> s = "" /\ t = "".
Proof. destruct s; cbn; [auto | discriminate]. Qed.

Lemma reverse_eq_empty (s : string) : reverse s = "" -> s = "".
Proof.
  destruct s as [| c s]; [reflexivity |].
  rewrite reverse_String. intros H. apply append_eq_empty in H.
  destruct H as [_ H]. discriminate.
Qed.

(** [trim] gives the empty string exactly on the strings made of white
    space only. *)
Lemma trim_empty_iff (s : string) : trim s = "" <-> blank s = true.
Proof.
  unfold trim. split.
  - intros H. apply reverse_eq_empty in H.
    destruct (blank s) eqn:Hb; [reflexivity | exfalso].
    destruct (trimStart_not_blank s Hb) as [c [rest [Hts Hc]]].
    rewrite Hts, reverse_String in H.
    destruct (trimStart_app_not_blank (reverse rest) c "" Hc) as [a [r Ha]].
    rewrite Ha in H. discriminate.
  - intros Hb. now rewrite (trimStart_blank s Hb).
Qed.

(** ** Persisting the collection *)

Section Persisting.
Context {platform : WebPlatform}.

Lemma envelope_decrypts (key : CryptoKey) (c : Collection) (iv : bytes)
    (w : World) :
  carries key c ->
  CryptoCore.decrypt (CryptoCore.envelope_of iv c key) key w = (Normal c, w).
Proof.
  intros [Hcipher Hjson].
  unfold CryptoCore.decrypt, CryptoCore.envelope_of.
  cbv [bind lift try_catch ret get_iv get_content].
  rewrite !new_Uint8Array_Array_from, Hcipher, Hjson. reflexivity.
Qed.

(** [in_step] looks at the session key, the collection and the envelope
    only. *)
Lemma in_step_same_vault (w w' : World) :
  State.key (state w') = State.key (state w) ->
  State.snippets (state w') = State.snippets (state w) ->
  Storage.encryptedData (storage w') = Storage.encryptedData (storage w) ->
  in_step w -> in_step w'.
Proof.
  intros Hk Hs He [key [Hkey Hdec]]. exists key.
  rewrite Hk, Hs, He. auto.
Qed.

Lemma saveEncrypted_unlocked (key : CryptoKey) (w : World) :
  State.key (state w) = Some key ->
  saveEncrypted w =
  if storage_write_ok (oracle w) (S (tick w))
  then (Normal tt,
        mkWorld (state w)
          (Storage.mk (Storage.salt (storage w))
             (CryptoCore.envelope_of (next_iv w) (State.snippets (state w)) key)
             (Storage.pendingClips (storage w)) (Storage.monitoring (storage w)))
          (log w) (oracle w) (S (S (tick w))))
  else (Normal tt,
        mkWorld (state w) (storage w)
          (log w ++ [EvToast (Msg "Save failed: Storage error") "error"])%list
          (oracle w) (S (S (tick w)))).
Proof.
  intros Hkey.
  unfold saveEncrypted, CryptoCore.encrypt, chrome_storage_local_set_encryptedData.
  run_script. rewrite Hkey. run_script.
  destruct (storage_write_ok (oracle w) (S (tick w))); reflexivity.
Qed.

(** X1. With a key held, [saveEncrypted] completes normally whatever the
    storage does and leaves the session state alone. When the write goes
    through, only [encryptedData] changes: it becomes the envelope of the
    whole collection under the session key, with the IV just drawn. When the
    write is rejected, the storage is what it was and the one trace is the
    toast. *)
Theorem saveEncrypted_swallows_rejected_write (key : CryptoKey) (w : World) :
  State.key (state w) = Some key ->
  let w' := exec saveEncrypted w in
  result saveEncrypted w = Normal tt /\
  state w' = state w /\
  if storage_write_ok (oracle w) (S (tick w))
  then
    Storage.encryptedData (storage w')
      = CryptoCore.envelope_of (next_iv w) (State.snippets (state w)) key /\
    Storage.salt (storage w') = Storage.salt (storage w) /\
    Storage.pendingClips (storage w') = Storage.pendingClips (storage w) /\
    Storage.monitoring (storage w') = Storage.monitoring (storage w) /\
    log w' = log w
  else
    storage w' = storage w /\
    log w' = (log w ++ [EvToast (Msg "Save failed: Storage error") "error"])%list.
Proof.
  intros Hkey w'. subst w'. unfold exec, result.
  rewrite (saveEncrypted_unlocked key w Hkey).
  destruct (storage_write_ok (oracle w) (S (tick w))); cbn; repeat split.
Qed.

(** X2. After a [saveEncrypted] whose write goes through, the stored
    envelope decrypts under the session key to the collection in memory, on
    a platform that carries this collection under this key. *)
Theorem saved_vault_reopens (key : CryptoKey) (w : World) :
  State.key (state w) = Some key ->
  storage_write_ok (oracle w) (S (tick w)) = true ->
  carries key (State.snippets (state w)) ->
  in_step (exec saveEncrypted w).
Proof.
  intros Hkey Hwrite Hcarries. unfold exec.
  rewrite (saveEncrypted_unlocked key w Hkey), Hwrite.
  exists key. cbn [snd state storage Storage.encryptedData].
  split; [exact Hkey |].
  intros w0. now apply envelope_decrypts.
Qed.

(** X3. A text of white space only, with no image pasted, is refused by
    [saveSnippet]: the toast is shown and nothing else happens, to the
    collection, to the storage or to the oracle. *)
Theorem saveSnippet_refuses_blank (edit_content : string) (w : World) :
  blank edit_content = true ->
  truthy (State.currentImageData (state w)) = false ->
  saveSnippet edit_content w
  = (Normal tt,
     with_log (log w ++ [EvToast (Msg "Snippet cannot be empty") "error"])%list w).
Proof.
  intros Hblank Himg. apply trim_empty_iff in Hblank.
  unfold saveSnippet. run_script. rewrite Hblank, Himg. reflexivity.
Qed.

End Persisting.

(** ** The editor *)





Section Editor.
Context {platform : WebPlatform}.

Opaque saveEncrypted.


Lemma openEditModal_new (w : World) :
  exists events,
    openEditModal None w
    = (Normal "",
       mkWorld
         (State.mk (State.key (state w)) (State.snippets (state w)) None None)
         (storage w) (log w ++ events)%list (oracle w) (tick w)).
Proof.
  unfold openEditModal, clearImagePreview. run_script.
  rewrite <- !app_assoc. eexists. reflexivity.
Qed.

Lemma handlePaste_image (items : list (string * string)) (mime data : string)
    (w : World) :
  find (fun item => prefix "image" (fst item)) items = Some (mime, data) ->
  exists events,
    handlePaste items w
    = (Normal tt,
       mkWorld (State_with_currentImageData (Some data) (state w))
         (storage w) (log w ++ events)%list (oracle w) (tick w)).
Proof.
  intros Hfind. unfold handlePaste. rewrite Hfind. run_script.
  rewrite <- !app_assoc. eexists. reflexivity.
Qed.

(** A save that adds a snippet: no pending edit, and a text or an image. *)
Lemma saveSnippet_new (edit_content : string) (w : World) :
  truthy (State.pendingEditId (state w)) = false ->
  (trim edit_content =? "") && negb (truthy (State.currentImageData (state w)))
    = false ->
  State.snippets (state (exec (saveSnippet edit_content) w))
  = Snippet.mk (randomUUID_at (oracle w) (tick w))
      (if truthy (State.currentImageData (state w))
       then Snippet.image else Snippet.text)
      (match State.currentImageData (state w) with
       | Some img =>
           if truthy (State.currentImageData (state w)) then img
           else trim edit_content
       | None => trim edit_content
       end)
      (if truthy (State.currentImageData (state w))
       then Snippet.caption (trim edit_content) else Snippet.null)
      [] (Date_now_at (oracle w) (S (tick w)))
    :: State.snippets (state w).
Proof.
  intros Hid Hok. unfold saveSnippet. run_script. rewrite Hok.
  destruct (State.pendingEditId (state w)) as [i |] eqn:Hi.
  - cbn in Hid. apply negb_false_iff in Hid. rewrite Hid. run_script.
    match goal with
    | |- context [saveEncrypted ?w2] =>
        destruct (saveEncrypted_effect w2) as [sto' [events [Hsave _]]];
        rewrite Hsave
    end.
    reflexivity.
  - run_script.
    match goal with
    | |- context [saveEncrypted ?w2] =>
        destruct (saveEncrypted_effect w2) as [sto' [events [Hsave _]]];
        rewrite Hsave
    end.
    reflexivity.
Qed.

(** X5. Saving a pasted image. After the editor is opened for a new
    snippet and an image is pasted, saving puts at the front of the
    collection an image snippet whose content is the pasted data and whose
    [metaText] is the trimmed text of the text area, the empty string when
    nothing was typed. *)
Theorem pasted_image_is_saved_with_caption (items : list (string * string))
    (mime data caption_text : string) (w : World) :
  find (fun item => prefix "image" (fst item)) items = Some (mime, data) ->
  data <> "" ->
  let w1 := exec (openEditModal None) w in
  let w2 := exec (handlePaste items) w1 in
  let w3 := exec (saveSnippet caption_text) w2 in
  State.snippets (state w3)
  = Snippet.mk (randomUUID_at (oracle w) (tick w)) Snippet.image data
      (Snippet.caption (trim caption_text)) []
      (Date_now_at (oracle w) (S (tick w)))
    :: State.snippets (state w).
Proof.
  intros Hfind Hdata w1 w2 w3. subst w1 w2 w3.
  apply String.eqb_neq in Hdata.
  destruct (openEditModal_new w) as [ev1 Hopen].
  unfold exec at 3. rewrite Hopen. cbn [snd].
  match goal with
  | |- context [exec (handlePaste items) ?w1] =>
      destruct (handlePaste_image items mime data w1 Hfind) as [ev2 Hpaste]
  end.
  unfold exec at 2. rewrite Hpaste. cbn [snd].
  rewrite saveSnippet_new; cbn; rewrite ?Hdata; cbn;
    [reflexivity | reflexivity | apply andb_false_r].
Qed.

(** X6. Opening the editor on an id that no snippet has throws a TypeError,
    after the id has been noted as the pending edit and the image preview
    cleared; the collection is untouched. *)
Theorem openEditModal_unknown_id_throws (i : string) (w : World) :
  i <> "" ->
  find (fun s => Snippet.id s =? i) (State.snippets (state w)) = None ->
  let w' := exec (openEditModal (Some i)) w in
  result (openEditModal (Some i)) w = Throw TypeError /\
  State.pendingEditId (state w') = Some i /\
  State.currentImageData (state w') = None /\
  State.snippets (state w') = State.snippets (state w) /\
  State.key (state w') = State.key (state w) /\
  storage w' = storage w.
Proof.
  intros Hi Hfind w'. subst w'. apply String.eqb_neq in Hi.
  unfold openEditModal, clearImagePreview. run_script.
  rewrite Hi. run_script. rewrite Hfind. run_script. repeat split.
Qed.

Transparent saveEncrypted.

End Editor.

(** ** Import *)






Section ImportAndSeal.
Context {platform : WebPlatform}.



Opaque saveEncrypted.




Transparent saveEncrypted.

End ImportAndSeal.

Section Mutations.
Context {platform : WebPlatform}.

Opaque saveEncrypted.



Lemma filter_nothing (p : Snippet.t -> bool) (l : Collection) :
  (forall s, In s l -> p s = true) -> filter p l = l.
Proof.
  induction l as [| a l IH]; intros H; cbn; [reflexivity |].
  rewrite (H a (or_introl eq_refl)). f_equal. apply IH.
  intros s Hs. apply H. now right.
Qed.

(** X10. Saving a new snippet and then deleting it, by the id it was
    given, gives back the collection as it was, when no other snippet has
    that id. *)
Theorem save_then_delete_restores (edit_content : string) (w : World) :
  truthy (State.pendingEditId (state w)) = false ->
  blank edit_content = false \/
  truthy (State.currentImageData (state w)) = true ->
  ~ In (randomUUID_at (oracle w) (tick w))
       (map Snippet.id (State.snippets (state w))) ->
  let saved := exec (saveSnippet edit_content) w in
  exists new,
    State.snippets (state saved) = new :: State.snippets (state w) /\
    Snippet.id new = randomUUID_at (oracle w) (tick w) /\
    State.snippets (state (exec (deleteSnippet (Snippet.id new) true) saved))
    = State.snippets (state w).
Proof.
  intros Hid Hinput Hfresh saved.
  assert (Hgo : (trim edit_content =? "")
                && negb (truthy (State.currentImageData (state w))) = false).
  { destruct Hinput as [Hb | Hi].
    - apply andb_false_iff. left. apply String.eqb_neq.
      intros H. apply trim_empty_iff in H. congruence.
    - rewrite Hi. apply andb_false_r. }
  pose proof (saveSnippet_new edit_content w Hid Hgo) as Hsaved.
  fold saved in Hsaved.
  eexists. split; [exact Hsaved |]. split; [reflexivity |].
  unfold deleteSnippet. run_script.
  match goal with
  | |- context [saveEncrypted ?W] =>
      destruct (saveEncrypted_effect W) as [sto' [events [Hsave _]]];
      rewrite Hsave
  end.
  cbn. rewrite Hsaved. cbn. rewrite String.eqb_refl. cbn.
  apply filter_nothing. intros s Hs. apply negb_true_iff.
  apply String.eqb_neq. intros Heq. apply Hfresh.
  apply in_map_iff. exists s. auto.
Qed.

Transparent saveEncrypted.

(** X11. Reconciling a second time adds nothing: whatever the storage did
    during the first run, a second run of [processPendingClips] right after
    it completes normally and leaves the world as the first run left it. *)
Theorem processPendingClips_twice (w : World) :
  let once := exec processPendingClips w in
  processPendingClips once = (Normal tt, once).
Proof.
  intros once.
  destruct (Storage.pendingClips (storage w)) as [pending |] eqn:Hpending.
  2: { assert (Honce : once = w).
       { subst once. unfold exec, processPendingClips. run_script.
         now rewrite Hpending. }
       rewrite Honce. unfold processPendingClips. run_script.
       now rewrite Hpending. }
  destruct pending as [| clip pending].
  { assert (Honce : once = w).
    { subst once. unfold exec, processPendingClips. run_script.
      now rewrite Hpending. }
    rewrite Honce. unfold processPendingClips. run_script.
    now rewrite Hpending. }
  assert (Hnonempty : clip :: pending <> []) by discriminate.
  destruct (processPendingClips_outcome (clip :: pending) w Hpending Hnonempty)
    as [added (Hadded & _ & Hcover & Hsn & _ & Hrun)].
  fold once in Hsn.
  assert (Hqueue : Storage.pendingClips (storage once) = None \/
                   Storage.pendingClips (storage once) = Some (clip :: pending)).
  { destruct added as [| s added].
    - right. subst once. unfold exec. rewrite Hrun. exact Hpending.
    - cbv zeta in Hrun. destruct (storage_write_ok _ _).
      + left. apply Hrun.
      + right. apply Hrun. }
  destruct Hqueue as [Hnone | Hsome].
  - unfold processPendingClips. run_script. now rewrite Hnone.
  - destruct (processPendingClips_outcome (clip :: pending) once Hsome Hnonempty)
      as [added' (Hadded' & _ & Hcover' & _ & _ & Hrun')].
    assert (Hnil : added' = []).
    { apply (nothing_added_iff (clip :: pending) (State.snippets (state once)));
        [exact Hadded' | exact Hcover' |].
      apply forallb_forall. intros c Hc. rewrite Hsn. now apply Hcover. }
    rewrite Hnil in Hrun'. exact Hrun'.
Qed.


End Mutations.

(** ** Setup and unlock *)

Lemma Array_from_range (u : bytes) :
  Forall (fun z => (0 <= z < 256)%Z) (Array_from u).
Proof.
  unfold Array_from. apply Forall_forall. intros z Hz.
  apply in_map_iff in Hz. destruct Hz as [b [<- _]].
  destruct b; cbn; lia.
Qed.

Lemma test_six_digits_not_empty (pin : string) :
  test_six_digits pin = true -> pin <> "".
Proof. intros H ->. discriminate H. Qed.

Section SetupAndUnlock.
Context {platform : WebPlatform}.

Lemma handleSetup_outcome (pin confirm : string) (w : World) :
  let w' := exec (handleSetup pin confirm) w in
  let salt :=
    map (random_byte (oracle w) (tick w)) (seq 0 CryptoCore.config.saltLen) in
  let iv := map (random_byte (oracle w) (S (tick w))) (seq 0 12) in
  let key := CryptoCore.subtle_deriveKey pin salt in
  if test_six_digits pin && (pin =? confirm)
     && storage_write_ok (oracle w) (S (S (tick w)))
  then
    storage w' =
      Storage.mk (Some (Array_from salt)) (CryptoCore.envelope_of iv [] key)
        (Storage.pendingClips (storage w)) (Storage.monitoring (storage w))
    /\ state w' = State.with_snippets [] (State.with_key (Some key) (state w))
    /\ In (EvShowView dashboard) (log w')
  else
    storage w' = storage w /\ state w' = state w /\
    (forall v, In (EvShowView v) (log w') -> In (EvShowView v) (log w)).
Proof.
  unfold handleSetup, CryptoCore.generateSalt, CryptoCore.deriveKey,
    CryptoCore.encrypt, chrome_storage_local_set_salt_encryptedData.
  destruct (test_six_digits pin) eqn:Hvalid;
    destruct (pin =? confirm) eqn:Hconfirm;
    destruct (storage_write_ok (oracle w) (S (S (tick w)))) eqn:Hwrite;
    run_script; rewrite ?Hvalid, ?Hconfirm; cbn; rewrite ?Hwrite; cbn;
    rewrite <- ?app_assoc; cbn [app];
    repeat split;
    try (apply in_or_app; right; cbn; tauto);
    try (intros v Hv; apply in_app_or in Hv; destruct Hv as [Hv | Hv];
         [exact Hv
         | cbn in Hv;
           repeat (destruct Hv as [Hv | Hv]; try discriminate Hv);
           contradiction]).
Qed.

(** X13. Setup is all or nothing. With a PIN of six digits that is
    confirmed and a write that goes through, the storage gets a salt of 16
    byte values and the envelope of the empty collection under the key
    derived from PIN and salt, the pending queue and the monitoring flag
    stay, the session adopts that key and the empty collection, and the
    dashboard is shown. In every other case storage and session are what
    they were and no view is shown. *)
Theorem setup_all_or_nothing (pin confirm : string) (w : World) :
  let w' := exec (handleSetup pin confirm) w in
  let salt :=
    map (random_byte (oracle w) (tick w)) (seq 0 CryptoCore.config.saltLen) in
  let iv := map (random_byte (oracle w) (S (tick w))) (seq 0 12) in
  let key := CryptoCore.subtle_deriveKey pin salt in
  if test_six_digits pin && (pin =? confirm)
     && storage_write_ok (oracle w) (S (S (tick w)))
  then
    Storage.salt (storage w') = Some (Array_from salt) /\
    length (Array_from salt) = 16%nat /\
    Forall (fun z => (0 <= z < 256)%Z) (Array_from salt) /\
    Storage.encryptedData (storage w') = CryptoCore.envelope_of iv [] key /\
    Storage.pendingClips (storage w') = Storage.pendingClips (storage w) /\
    Storage.monitoring (storage w') = Storage.monitoring (storage w) /\
    State.key (state w') = Some key /\
    State.snippets (state w') = [] /\
    In (EvShowView dashboard) (log w')
  else
    storage w' = storage w /\ state w' = state w /\
    (forall v, In (EvShowView v) (log w') -> In (EvShowView v) (log w)).
Proof.
  intros w' salt iv key.
  pose proof (handleSetup_outcome pin confirm w) as H.
  fold w' salt iv key in H.
  destruct (test_six_digits pin && (pin =? confirm)
            && storage_write_ok (oracle w) (S (S (tick w)))).
  - destruct H as (Hsto & Hst & Hview). rewrite Hsto, Hst.
    cbn [Storage.salt Storage.encryptedData Storage.pendingClips
         Storage.monitoring State.key State.snippets State.with_snippets
         State.with_key].
    repeat split; try assumption; apply Array_from_range.
  - exact H.
Qed.

Lemma processPendingClips_empty_queue (w : World) :
  queue (storage w) = [] -> processPendingClips w = (Normal tt, w).
Proof.
  unfold queue, processPendingClips. run_script.
  destruct (Storage.pendingClips (storage w)) as [[| c l] |];
    [reflexivity | discriminate | reflexivity].
Qed.

(** An unlock of a sealed vault with the PIN of its key, no clip pending. *)
Lemma handleLogin_sealed (pin : string) (saltArr : list Z) (iv : bytes)
    (c : Collection) (w : World) :
  pin <> "" ->
  Storage.salt (storage w) = Some saltArr ->
  let key := CryptoCore.subtle_deriveKey pin (Uint8Array_of_array saltArr) in
  Storage.encryptedData (storage w) = CryptoCore.envelope_of iv c key ->
  carries key c ->
  queue (storage w) = [] ->
  let w' := exec (handleLogin pin) w in
  State.key (state w') = Some key /\
  State.snippets (state w') = c /\
  storage w' = storage w /\
  In (EvShowView dashboard) (skipn (length (log w)) (log w')).
Proof.
  intros Hpin Hsalt key Henv Hcarries Hqueue w'. subst w'.
  assert (Hdec : result (CryptoCore.decrypt (Storage.encryptedData (storage w))
                           key) w = Normal c).
  { rewrite Henv. unfold result. now rewrite envelope_decrypts. }
  unfold exec.
  rewrite (handleLogin_success pin saltArr c w Hpin Hsalt Hdec).
  rewrite processPendingClips_empty_queue by exact Hqueue.
  cbn [snd state storage log with_log State.key State.snippets
       State.with_snippets State.with_key].
  repeat split.
  rewrite <- !app_assoc, skipn_app, skipn_all, Nat.sub_diag. cbn. tauto.
Qed.

(** X14. Setup, then unlock. After a setup that went through, with the
    popup closed and no clip pending, unlocking with the same PIN adopts the
    key and the empty collection, leaves the storage as setup left it and
    shows the dashboard, on a platform that carries the empty collection
    under that key. *)
Theorem setup_then_unlock (pin : string) (w : World) :
  test_six_digits pin = true ->
  storage_write_ok (oracle w) (S (S (tick w))) = true ->
  queue (storage w) = [] ->
  let key :=
    CryptoCore.subtle_deriveKey pin
      (map (random_byte (oracle w) (tick w)) (seq 0 CryptoCore.config.saltLen)) in
  carries key [] ->
  let after_setup := exec (handleSetup pin pin) w in
  let reopened := with_state State.initial after_setup in
  let w' := exec (handleLogin pin) reopened in
  State.key (state w') = Some key /\
  State.snippets (state w') = [] /\
  storage w' = storage after_setup /\
  In (EvShowView dashboard) (skipn (length (log reopened)) (log w')).
Proof.
  intros Hvalid Hwrite Hqueue key Hcarries after_setup reopened w'.
  pose proof (handleSetup_outcome pin pin w) as H. cbv zeta in H.
  rewrite Hvalid, String.eqb_refl, Hwrite in H. cbn [andb] in H.
  destruct H as (Hsto & _).
  fold after_setup in Hsto.
  assert (Hk : CryptoCore.subtle_deriveKey pin
                 (Uint8Array_of_array
                    (Array_from (map (random_byte (oracle w) (tick w))
                                   (seq 0 CryptoCore.config.saltLen)))) = key)
    by now rewrite Uint8Array_of_Array_from.
  assert (Hgoal :
    State.key (state w') = Some key /\
    State.snippets (state w') = [] /\
    storage w' = storage reopened /\
    In (EvShowView dashboard) (skipn (length (log reopened)) (log w'))).
  { rewrite <- Hk.
    apply (handleLogin_sealed pin
             (Array_from (map (random_byte (oracle w) (tick w))
                            (seq 0 CryptoCore.config.saltLen)))
             (map (random_byte (oracle w) (S (tick w))) (seq 0 12)) [] reopened).
    - now apply test_six_digits_not_empty.
    - subst reopened. cbn [storage with_state]. rewrite Hsto. reflexivity.
    - subst reopened. cbn [storage with_state]. rewrite Hsto, Hk. reflexivity.
    - now rewrite Hk.
    - subst reopened. cbn [storage with_state]. rewrite Hsto.
      unfold queue in *. exact Hqueue. }
  destruct Hgoal as (H1 & H2 & H3 & H4). auto.
Qed.

(** X15. Change of PIN, then unlock. After a change of PIN that went
    through, with the popup closed and no clip pending, unlocking with the
    new PIN adopts the new key and the collection that was in memory at the
    change, on a platform that carries this collection under the new key. *)
Theorem rekey_then_unlock_with_new_pin (newPin : string) (w : World) :
  test_six_digits newPin = true ->
  storage_write_ok (oracle w) (S (S (tick w))) = true ->
  queue (storage w) = [] ->
  let newKey :=
    CryptoCore.subtle_deriveKey newPin
      (map (random_byte (oracle w) (tick w)) (seq 0 CryptoCore.config.saltLen)) in
  carries newKey (State.snippets (state w)) ->
  let rekeyed := exec (handleChangePin newPin newPin) w in
  let reopened := with_state State.initial rekeyed in
  let w' := exec (handleLogin newPin) reopened in
  State.key (state w') = Some newKey /\
  State.snippets (state w') = State.snippets (state w) /\
  storage w' = storage rekeyed.
Proof.
  intros Hvalid Hwrite Hqueue newKey Hcarries rekeyed reopened w'.
  pose proof (handleChangePin_outcome newPin newPin w) as H. cbv zeta in H.
  rewrite Hvalid, String.eqb_refl, Hwrite in H. cbn [andb] in H.
  destruct H as (_ & Hsto & _).
  fold rekeyed in Hsto.
  assert (Hk : CryptoCore.subtle_deriveKey newPin
                 (Uint8Array_of_array
                    (Array_from (map (random_byte (oracle w) (tick w))
                                   (seq 0 CryptoCore.config.saltLen)))) = newKey)
    by now rewrite Uint8Array_of_Array_from.
  assert (Hgoal :
    State.key (state w') = Some newKey /\
    State.snippets (state w') = State.snippets (state w) /\
    storage w' = storage reopened /\
    In (EvShowView dashboard) (skipn (length (log reopened)) (log w'))).
  { rewrite <- Hk.
    apply (handleLogin_sealed newPin
             (Array_from (map (random_byte (oracle w) (tick w))
                            (seq 0 CryptoCore.config.saltLen)))
             (map (random_byte (oracle w) (S (tick w))) (seq 0 12))
             (State.snippets (state w)) reopened).
    - now apply test_six_digits_not_empty.
    - subst reopened. cbn [storage with_state]. rewrite Hsto. reflexivity.
    - subst reopened. cbn [storage with_state]. rewrite Hsto, Hk. reflexivity.
    - now rewrite Hk.
    - subst reopened. cbn [storage with_state]. rewrite Hsto.
      unfold queue in *. exact Hqueue. }
  destruct Hgoal as (H1 & H2 & H3 & _). auto.
Qed.

(** X16. A storage with a salt but no envelope cannot be unlocked: the page
    shows the login view, and whatever PINs are tried, in whatever number,
    the session gets no key and the storage does not change. *)
Theorem salt_without_envelope_never_unlocks (saltArr : list Z)
    (pins : list string) (w : World) :
  Storage.salt (storage w) = Some saltArr ->
  Storage.encryptedData (storage w) = EnvUndefined ->
  State.key (state w) = None ->
  In (EvShowView auth) (skipn (length (log w)) (log (exec DOMContentLoaded w))) /\
  let w' := run_all (map handleLogin pins) w in
  State.key (state w') = None /\ storage w' = storage w.
Proof.
  intros Hsalt Henv Hlocked. split.
  - unfold DOMContentLoaded, bindEvents, checkSetup. run_script.
    rewrite Hsalt. run_script.
    rewrite <- !app_assoc, skipn_app, skipn_all, Nat.sub_diag. cbn. tauto.
  - revert w Hsalt Henv Hlocked.
    induction pins as [| pin pins IH]; intros w Hsalt Henv Hlocked.
    + cbn. auto.
    + destruct (handleLogin_wrong_pin pin w) as [events Hrun].
      { intros s w0 _. rewrite Henv. exists TypeError. reflexivity. }
      assert (Hexec : exec (handleLogin pin) w
                      = with_log (log w ++ events)%list w)
        by (unfold exec; now rewrite Hrun).
      cbn [map]. rewrite run_all_cons, Hexec.
      apply (IH (with_log (log w ++ events)%list w)); assumption.
Qed.

(** X17. When the storage rejects every write, an unlock with the right PIN
    and a new clip pending still adopts the key and reconciles the queue in
    memory, but ends in the [catch] block: the user is told "Incorrect PIN",
    and the pending queue stays in storage. *)
Theorem unlock_with_rejected_writes_says_incorrect_pin
    (pin : string) (saltArr : list Z) (c : Collection)
    (pending : list PendingClip.t) (w : World) :
  pin <> "" ->
  Storage.salt (storage w) = Some saltArr ->
  let key := CryptoCore.subtle_deriveKey pin (Uint8Array_of_array saltArr) in
  result (CryptoCore.decrypt (Storage.encryptedData (storage w)) key) w = Normal c ->
  Storage.pendingClips (storage w) = Some pending ->
  forallb (fun clip => has_content (PendingClip.content clip) c) pending = false ->
  (forall t, storage_write_ok (oracle w) t = false) ->
  let w' := exec (handleLogin pin) w in
  State.key (state w') = Some key /\
  (exists added, added <> [] /\ State.snippets (state w') = (added ++ c)%list) /\
  Storage.pendingClips (storage w') = Some pending /\
  exists before,
    log w' = (before ++ [EvConsoleError StorageError;
                         EvDom "auth-pin.classList.add('shake')";
                         EvDom "auth-pin.value = ''";
                         EvToast (Msg "Incorrect PIN") "error";
                         EvSetLoading false])%list.
Proof.
  intros Hpin Hsalt key Hdec Hpending Hnew Hrejected w'. subst w'.
  assert (Hnonempty : pending <> []).
  { intros ->. discriminate Hnew. }
  unfold exec.
  rewrite (handleLogin_success pin saltArr c w Hpin Hsalt Hdec). fold key.
  set (w1 := mkWorld _ _ _ _ _).
  destruct (processPendingClips_outcome pending w1 Hpending Hnonempty)
    as [added (Hadded & _ & Hcover & Hsn & Hkey & Hrun)].
  pose proof (nothing_added_iff pending c added Hadded Hcover) as Hnil.
  destruct added as [| s added].
  { destruct Hnil as [Hnil _]. rewrite (Hnil eq_refl) in Hnew. discriminate. }
  cbv zeta in Hrun. cbn [oracle w1] in Hrun. rewrite Hrejected in Hrun.
  destruct Hrun as [Hthrow Hkept].
  unfold exec, result in *.
  destruct (processPendingClips w1) as [r w2]. cbn [fst snd] in *. subst r.
  cbn [snd state storage log with_log].
  split; [exact Hkey |]. split; [| split].
  - exists (s :: added). split; [discriminate | exact Hsn].
  - exact Hkept.
  - eexists. reflexivity.
Qed.

End SetupAndUnlock.

(** ** Escaping *)

Lemma escape_char_not_empty (a : ascii) : escape_char a <> "".
Proof.
  unfold escape_char.
  repeat match goal with
         | |- context [Ascii.eqb ?x ?y] => destruct (Ascii.eqb x y)
         end; discriminate.
Qed.

(** The five replacements in a row, on a text that begins with [a]. *)
Lemma replacements_step (a : ascii) (rest : string) :
  replace_all "'" "&#039;"
    (replace_all double_quote "&quot;"
       (replace_all ">" "&gt;"
          (replace_all "<" "&lt;"
             (replace_all "&" "&amp;" (String a rest)))))
  = escape_char a
    ++ replace_all "'" "&#039;"
         (replace_all double_quote "&quot;"
            (replace_all ">" "&gt;"
               (replace_all "<" "&lt;"
                  (replace_all "&" "&amp;" rest)))).
Proof.
  unfold escape_char.
  destruct (Ascii.eqb_spec a "&") as [-> | Hamp]; [reflexivity |].
  destruct (Ascii.eqb_spec a "<") as [-> | Hlt]; [reflexivity |].
  destruct (Ascii.eqb_spec a ">") as [-> | Hgt]; [reflexivity |].
  destruct (Ascii.eqb_spec a double_quote) as [-> | Hq]; [reflexivity |].
  destruct (Ascii.eqb_spec a "'") as [-> | Hap]; [reflexivity |].
  apply Ascii.eqb_neq in Hamp, Hlt, Hgt, Hq, Hap.
  cbn [replace_all]. rewrite Hamp. cbn [replace_all]. rewrite Hlt.
  cbn [replace_all]. rewrite Hgt. cbn [replace_all]. rewrite Hq.
  cbn [replace_all]. rewrite Hap. reflexivity.
Qed.

Lemma escapeHtml_one_pass_aux (text : string) :
  escapeHtml text = escape_each text.
Proof.
  unfold escapeHtml. destruct text as [| a rest]; [reflexivity |].
  cbn [String.eqb]. revert a.
  induction rest as [| b rest IH]; intros a.
  - rewrite replacements_step. reflexivity.
  - rewrite replacements_step, IH. reflexivity.
Qed.

(** X18. [escapeHtml] escapes each character once: the five replacements
    in a row give the same text as one pass that turns [&], [<], [>], the
    double quote and the apostrophe into their entities and keeps every other
    character, so the [&] of an entity is never escaped again. *)
Theorem escapeHtml_is_one_pass (text : string) :
  escapeHtml text = escape_each text /\
  forall a rest,
    escapeHtml (String a rest) = escape_char a ++ escapeHtml rest.
Proof.
  split; [apply escapeHtml_one_pass_aux |].
  intros a rest. now rewrite !escapeHtml_one_pass_aux.
Qed.

Lemma escape_char_safe (a c : ascii) :
  In c (list_ascii_of_string (escape_char a)) -> markup c = false.
Proof.
  unfold escape_char, markup.
  destruct (Ascii.eqb_spec a "&") as [-> | Hamp];
    [cbn; intros H; repeat (destruct H as [<- | H]; [reflexivity |]);
     contradiction |].
  destruct (Ascii.eqb_spec a "<") as [-> | Hlt];
    [cbn; intros H; repeat (destruct H as [<- | H]; [reflexivity |]);
     contradiction |].
  destruct (Ascii.eqb_spec a ">") as [-> | Hgt];
    [cbn; intros H; repeat (destruct H as [<- | H]; [reflexivity |]);
     contradiction |].
  destruct (Ascii.eqb_spec a double_quote) as [-> | Hq];
    [cbn; intros H; repeat (destruct H as [<- | H]; [reflexivity |]);
     contradiction |].
  destruct (Ascii.eqb_spec a "'") as [-> | Hap];
    [cbn; intros H; repeat (destruct H as [<- | H]; [reflexivity |]);
     contradiction |].
  cbn [list_ascii_of_string In]. intros [<- | []].
  apply Ascii.eqb_neq in Hlt, Hgt, Hq, Hap.
  now rewrite Hlt, Hgt, Hq, Hap.
Qed.

Lemma list_ascii_of_string_app (s t : string) :
  list_ascii_of_string (s ++ t)
  = (list_ascii_of_string s ++ list_ascii_of_string t)%list.
Proof. induction s as [| a s IH]; cbn; [reflexivity | now rewrite IH]. Qed.

(** X19. The text that [escapeHtml] returns has no [<], no [>], no double
    quote and no apostrophe in it, and a text that has none of these and no
    [&] is returned as it is. *)
Theorem escapeHtml_output_has_no_markup (text : string) :
  (forall c, In c (list_ascii_of_string (escapeHtml text)) -> markup c = false) /\
  ((forall c, In c (list_ascii_of_string text) ->
              markup c = false /\ Ascii.eqb c "&" = false) ->
   escapeHtml text = text).
Proof.
  rewrite escapeHtml_one_pass_aux. split.
  - induction text as [| a rest IH]; cbn [escape_each]; intros c Hc.
    + destruct Hc.
    + rewrite list_ascii_of_string_app in Hc. apply in_app_or in Hc.
      destruct Hc as [Hc | Hc]; [now apply (escape_char_safe a) | now apply IH].
  - induction text as [| a rest IH]; intros Hplain; [reflexivity |].
    cbn [escape_each]. rewrite IH.
    + destruct (Hplain a (or_introl eq_refl)) as [Hm Hamp].
      unfold markup in Hm. apply orb_false_elim in Hm. destruct Hm as [Hm Hap].
      apply orb_false_elim in Hm. destruct Hm as [Hm Hq].
      apply orb_false_elim in Hm. destruct Hm as [Hlt Hgt].
      unfold escape_char. now rewrite Hamp, Hlt, Hgt, Hq, Hap.
    + intros c Hc. apply Hplain. now right.
Qed.

Lemma escape_char_cancel (a b : ascii) (x y : string) :
  escape_char a ++ x = escape_char b ++ y -> a = b /\ x = y.
Proof.
  unfold escape_char.
  destruct (Ascii.eqb_spec a "&") as [-> | Ha1];
    [| destruct (Ascii.eqb_spec a "<") as [-> | Ha2];
       [| destruct (Ascii.eqb_spec a ">") as [-> | Ha3];
          [| destruct (Ascii.eqb_spec a double_quote) as [-> | Ha4];
             [| destruct (Ascii.eqb_spec a "'") as [-> | Ha5]]]]];
  (destruct (Ascii.eqb_spec b "&") as [-> | Hb1];
    [| destruct (Ascii.eqb_spec b "<") as [-> | Hb2];
       [| destruct (Ascii.eqb_spec b ">") as [-> | Hb3];
          [| destruct (Ascii.eqb_spec b double_quote) as [-> | Hb4];
             [| destruct (Ascii.eqb_spec b "'") as [-> | Hb5]]]]]);
  cbn; intros H; try discriminate H;
  try (injection H; intros; subst; split; congruence);
  try (injection H; intros; subst; exfalso; congruence).
Qed.

(** X20. [escapeHtml] loses nothing: two texts with the same escaped form
    are the same text. *)
Theorem escapeHtml_injective (s t : string) :
  escapeHtml s = escapeHtml t -> s = t.
Proof.
  rewrite !escapeHtml_one_pass_aux. revert t.
  induction s as [| a s IH]; intros [| b t]; cbn [escape_each]; intros H.
  - reflexivity.
  - symmetry in H. apply append_eq_empty in H. destruct H as [H _].
    now apply escape_char_not_empty in H.
  - apply append_eq_empty in H. destruct H as [H _].
    now apply escape_char_not_empty in H.
  - apply escape_char_cancel in H. destruct H as [-> H].
    f_equal. now apply IH.
Qed.

(** ** Monitoring *)

Lemma non_blank_test (text : string) :
  negb (text =? "") && (0 <? String.length (trim text))%nat = negb (blank text).
Proof.
  destruct (blank text) eqn:Hb.
  - apply trim_empty_iff in Hb. rewrite Hb. cbn. apply andb_false_r.
  - assert (Htrim : trim text <> "").
    { intros H. apply trim_empty_iff in H. congruence. }
    assert (Htext : text <> "").
    { intros ->. discriminate Hb. }
    apply String.eqb_neq in Htext. rewrite Htext.
    destruct (trim text); [congruence | reflexivity].
Qed.

(** X21. The monitoring gate. The toggle stores its state under
    [monitoring] when the write goes through, leaving the vault's keys
    alone. The [copy] listener never throws; it sends one [autoSave] message,
    with the clipboard text as it is, exactly when monitoring is enabled in
    storage, the clipboard could be read and its text is not white space
    only; in every other case it does nothing. *)
Theorem monitoring_gate (w : World) :
  (forall checked,
      let w' := exec (toggle_monitor_change checked) w in
      if storage_write_ok (oracle w) (tick w)
      then monitoring_enabled (storage w') = checked /\
           Storage.salt (storage w') = Storage.salt (storage w) /\
           Storage.encryptedData (storage w') = Storage.encryptedData (storage w) /\
           Storage.pendingClips (storage w') = Storage.pendingClips (storage w)
      else storage w' = storage w) /\
  (forall clipboardText,
      copy_listener clipboardText w =
      (Normal tt,
       match clipboardText with
       | Normal text =>
           if monitoring_enabled (storage w) && negb (blank text)
           then with_log (log w ++ [EvSendMessage "autoSave" text])%list w
           else w
       | Throw _ => w
       end)).
Proof.
  split.
  - intros checked. unfold toggle_monitor_change, chrome_storage_local_set_monitoring.
    run_script. destruct (storage_write_ok (oracle w) (tick w)); cbn;
      repeat split.
  - intros [text | e]; unfold copy_listener; run_script;
      destruct (monitoring_enabled (storage w)); cbn; try reflexivity.
    rewrite non_blank_test. destruct (blank text); reflexivity.
Qed.

(** * Concrete runs of the further properties *)

(** The open vault with foo, on a storage that rejects the write. *)
Lemma saveEncrypted_swallows_rejected_write_witness :
  let w := Fixture.rejecting Fixture.unlocked_foo in
  State.key (state w) = Some Scenario.key_123456 /\
  result (saveEncrypted (platform := Fixture.platform)) w = Normal tt /\
  state (exec (saveEncrypted (platform := Fixture.platform)) w) = state w /\
  storage (exec (saveEncrypted (platform := Fixture.platform)) w) = storage w /\
  log (exec (saveEncrypted (platform := Fixture.platform)) w)
  = (log w ++ [EvToast (Msg "Save failed: Storage error") "error"])%list.
Proof.
  intros w.
  assert (Hkey : State.key (state w) = Some Scenario.key_123456)
    by (vm_compute; reflexivity).
  pose proof (saveEncrypted_swallows_rejected_write
                (platform := Fixture.platform) Scenario.key_123456 w Hkey) as H.
  cbv zeta in H.
  assert (Hwrite : storage_write_ok (oracle w) (S (tick w)) = false)
    by reflexivity.
  rewrite Hwrite in H.
  destruct H as (Hres & Hst & Hsto & Hlog).
  exact (conj Hkey (conj Hres (conj Hst (conj Hsto Hlog)))).
Defined.

(** The open vault with foo, saved once more. *)
Lemma saved_vault_reopens_witness :
  let w := Fixture.unlocked_foo in
  State.key (state w) = Some Scenario.key_123456 /\
  storage_write_ok (oracle w) (S (tick w)) = true /\
  carries (platform := Fixture.platform) Scenario.key_123456
    (State.snippets (state w)) /\
  in_step (platform := Fixture.platform)
    (exec (saveEncrypted (platform := Fixture.platform)) w).
Proof.
  intros w.
  assert (Hkey : State.key (state w) = Some Scenario.key_123456)
    by (vm_compute; reflexivity).
  assert (Hwrite : storage_write_ok (oracle w) (S (tick w)) = true)
    by reflexivity.
  assert (Hcarries : carries (platform := Fixture.platform) Scenario.key_123456
                       (State.snippets (state w))).
  { split; [intros iv |]; vm_compute; reflexivity. }
  exact (conj Hkey (conj Hwrite (conj Hcarries
           (saved_vault_reopens (platform := Fixture.platform)
              Scenario.key_123456 w Hkey Hwrite Hcarries)))).
Defined.

(** Two blanks, a tab and a line feed. *)
Lemma saveSnippet_refuses_blank_witness :
  let text := String " " (String " " (String (ascii_of_nat 9)
                (String (ascii_of_nat 10) EmptyString))) in
  blank text = true /\
  truthy (State.currentImageData (state Fixture.unlocked_foo)) = false /\
  saveSnippet (platform := Fixture.platform) text Fixture.unlocked_foo
  = (Normal tt,
     with_log (log Fixture.unlocked_foo
               ++ [EvToast (Msg "Snippet cannot be empty") "error"])%list
       Fixture.unlocked_foo).
Proof.
  intros text.
  assert (Hblank : blank text = true) by reflexivity.
  assert (Himg : truthy (State.currentImageData (state Fixture.unlocked_foo))
                 = false) by reflexivity.
  exact (conj Hblank (conj Himg
           (saveSnippet_refuses_blank (platform := Fixture.platform)
              text Fixture.unlocked_foo Hblank Himg))).
Defined.


(** A text item and a PNG on the clipboard, no caption typed. *)
Lemma pasted_image_is_saved_with_caption_witness :
  let w := Scenario.unlocked_empty in
  let data := "data:image/png;base64,AAAA" in
  find (fun item => prefix "image" (fst item)) Fixture.clipboard_items
    = Some ("image/png", data) /\
  data <> "" /\
  State.snippets
    (state (exec (saveSnippet (platform := Fixture.platform) "")
              (exec (handlePaste Fixture.clipboard_items)
                 (exec (openEditModal None) w))))
  = Snippet.mk (randomUUID_at (oracle w) (tick w)) Snippet.image data
      (Snippet.caption (trim "")) [] (Date_now_at (oracle w) (S (tick w)))
    :: State.snippets (state w).
Proof.
  intros w data.
  assert (Hfind : find (fun item => prefix "image" (fst item))
                    Fixture.clipboard_items = Some ("image/png", data))
    by (vm_compute; reflexivity).
  assert (Hdata : data <> "") by discriminate.
  exact (conj Hfind (conj Hdata
           (pasted_image_is_saved_with_caption (platform := Fixture.platform)
              Fixture.clipboard_items "image/png" data "" w Hfind Hdata))).
Defined.

(** An id that the open vault does not have. *)
Lemma openEditModal_unknown_id_throws_witness :
  let w := Fixture.unlocked_foo in
  "gone" <> "" /\
  find (fun s => Snippet.id s =? "gone") (State.snippets (state w)) = None /\
  result (openEditModal (Some "gone")) w = Throw TypeError /\
  State.pendingEditId (state (exec (openEditModal (Some "gone")) w))
    = Some "gone".
Proof.
  intros w.
  assert (Hid : "gone" <> "") by discriminate.
  assert (Hfind : find (fun s => Snippet.id s =? "gone")
                    (State.snippets (state w)) = None)
    by (vm_compute; reflexivity).
  pose proof (openEditModal_unknown_id_throws "gone" w Hid Hfind) as H.
  cbv zeta in H. destruct H as (Hthrow & Hpending & _).
  exact (conj Hid (conj Hfind (conj Hthrow Hpending))).
Defined.




(** A note saved into the open vault with foo, then deleted. *)
Lemma save_then_delete_restores_witness :
  let w := Fixture.unlocked_foo in
  truthy (State.pendingEditId (state w)) = false /\
  blank "note" = false /\
  ~ In (randomUUID_at (oracle w) (tick w))
       (map Snippet.id (State.snippets (state w))) /\
  exists new,
    State.snippets (state (exec (saveSnippet (platform := Fixture.platform)
                                   "note") w))
    = new :: State.snippets (state w) /\
    Snippet.id new = randomUUID_at (oracle w) (tick w) /\
    State.snippets
      (state (exec (deleteSnippet (platform := Fixture.platform)
                      (Snippet.id new) true)
                (exec (saveSnippet (platform := Fixture.platform) "note") w)))
    = State.snippets (state w).
Proof.
  intros w.
  assert (Hid : truthy (State.pendingEditId (state w)) = false) by reflexivity.
  assert (Hblank : blank "note" = false) by reflexivity.
  assert (Hfresh : ~ In (randomUUID_at (oracle w) (tick w))
                        (map Snippet.id (State.snippets (state w)))).
  { vm_compute. intros [H | []]. discriminate H. }
  exact (conj Hid (conj Hblank (conj Hfresh
           (save_then_delete_restores (platform := Fixture.platform)
              "note" w Hid (or_introl Hblank) Hfresh)))).
Defined.


(** Setup with 123456 on the empty storage, then unlock. *)
Lemma setup_then_unlock_witness :
  let w := Scenario.fresh in
  let after_setup := exec (handleSetup (platform := Fixture.platform)
                             "123456" "123456") w in
  let reopened := with_state State.initial after_setup in
  let w' := exec (handleLogin (platform := Fixture.platform) "123456") reopened in
  let key :=
    CryptoCore.subtle_deriveKey (platform := Fixture.platform) "123456"
      (map (random_byte (oracle w) (tick w)) (seq 0 CryptoCore.config.saltLen)) in
  test_six_digits "123456" = true /\
  storage_write_ok (oracle w) (S (S (tick w))) = true /\
  queue (storage w) = [] /\
  carries (platform := Fixture.platform) key [] /\
  State.key (state w') = Some key /\
  State.snippets (state w') = [] /\
  storage w' = storage after_setup /\
  In (EvShowView dashboard) (skipn (length (log reopened)) (log w')).
Proof.
  intros w after_setup reopened w' key.
  assert (Hvalid : test_six_digits "123456" = true) by reflexivity.
  assert (Hwrite : storage_write_ok (oracle w) (S (S (tick w))) = true)
    by reflexivity.
  assert (Hqueue : queue (storage w) = []) by reflexivity.
  assert (Hcarries : carries (platform := Fixture.platform) key []).
  { split; [intros iv |]; vm_compute; reflexivity. }
  exact (conj Hvalid (conj Hwrite (conj Hqueue (conj Hcarries
           (setup_then_unlock (platform := Fixture.platform) "123456" w
              Hvalid Hwrite Hqueue Hcarries))))).
Defined.

(** The open vault with foo gets the PIN 999999 and is unlocked with it. *)
Lemma rekey_then_unlock_with_new_pin_witness :
  let w := Fixture.unlocked_foo in
  let rekeyed := exec (handleChangePin (platform := Fixture.platform)
                         "999999" "999999") w in
  let reopened := with_state State.initial rekeyed in
  let w' := exec (handleLogin (platform := Fixture.platform) "999999") reopened in
  let newKey :=
    CryptoCore.subtle_deriveKey (platform := Fixture.platform) "999999"
      (map (random_byte (oracle w) (tick w)) (seq 0 CryptoCore.config.saltLen)) in
  test_six_digits "999999" = true /\
  storage_write_ok (oracle w) (S (S (tick w))) = true /\
  queue (storage w) = [] /\
  carries (platform := Fixture.platform) newKey (State.snippets (state w)) /\
  State.key (state w') = Some newKey /\
  State.snippets (state w') = State.snippets (state w) /\
  storage w' = storage rekeyed.
Proof.
  intros w rekeyed reopened w' newKey.
  assert (Hvalid : test_six_digits "999999" = true) by reflexivity.
  assert (Hwrite : storage_write_ok (oracle w) (S (S (tick w))) = true)
    by reflexivity.
  assert (Hqueue : queue (storage w) = []) by (vm_compute; reflexivity).
  assert (Hcarries : carries (platform := Fixture.platform) newKey
                       (State.snippets (state w))).
  { split; [intros iv |]; vm_compute; reflexivity. }
  exact (conj Hvalid (conj Hwrite (conj Hqueue (conj Hcarries
           (rekey_then_unlock_with_new_pin (platform := Fixture.platform)
              "999999" w Hvalid Hwrite Hqueue Hcarries))))).
Defined.

(** A salt and no envelope: three PINs, the right format or not. *)
Lemma salt_without_envelope_never_unlocks_witness :
  let w := Fixture.salt_only in
  let pins := ["123456"; "000000"; "x"] in
  Storage.salt (storage w) = Some Scenario.stored_salt /\
  Storage.encryptedData (storage w) = EnvUndefined /\
  State.key (state w) = None /\
  In (EvShowView auth) (skipn (length (log w)) (log (exec DOMContentLoaded w))) /\
  State.key (state (run_all (map (handleLogin (platform := Fixture.platform))
                               pins) w)) = None /\
  storage (run_all (map (handleLogin (platform := Fixture.platform)) pins) w)
  = storage w.
Proof.
  intros w pins.
  assert (Hsalt : Storage.salt (storage w) = Some Scenario.stored_salt)
    by reflexivity.
  assert (Henv : Storage.encryptedData (storage w) = EnvUndefined)
    by reflexivity.
  assert (Hlocked : State.key (state w) = None) by reflexivity.
  exact (conj Hsalt (conj Henv (conj Hlocked
           (salt_without_envelope_never_unlocks (platform := Fixture.platform)
              Scenario.stored_salt pins w Hsalt Henv Hlocked)))).
Defined.

(** The vault with foo, the clip bar pending, and a storage that rejects
    every write: unlocking with the right PIN. *)
Lemma unlock_with_rejected_writes_says_incorrect_pin_witness :
  let w := Fixture.rejecting Fixture.locked_foo_pending_bar in
  let pending := [PendingClip.mk "bar" 1700000000007] in
  let w' := exec (handleLogin (platform := Fixture.platform) "123456") w in
  "123456" <> "" /\
  Storage.salt (storage w) = Some Scenario.stored_salt /\
  result (CryptoCore.decrypt (platform := Fixture.platform)
            (Storage.encryptedData (storage w)) Scenario.key_123456) w
    = Normal [Scenario.foo_snippet] /\
  Storage.pendingClips (storage w) = Some pending /\
  forallb (fun clip => has_content (PendingClip.content clip)
                         [Scenario.foo_snippet]) pending = false /\
  (forall t, storage_write_ok (oracle w) t = false) /\
  State.key (state w') = Some Scenario.key_123456 /\
  Storage.pendingClips (storage w') = Some pending.
Proof.
  intros w pending w'.
  assert (Hpin : "123456" <> "") by discriminate.
  assert (Hsalt : Storage.salt (storage w) = Some Scenario.stored_salt)
    by (vm_compute; reflexivity).
  assert (Hdec : result (CryptoCore.decrypt (platform := Fixture.platform)
            (Storage.encryptedData (storage w)) Scenario.key_123456) w
    = Normal [Scenario.foo_snippet]) by (vm_compute; reflexivity).
  assert (Hpending : Storage.pendingClips (storage w) = Some pending)
    by (vm_compute; reflexivity).
  assert (Hnew : forallb (fun clip => has_content (PendingClip.content clip)
                            [Scenario.foo_snippet]) pending = false)
    by reflexivity.
  assert (Hrejected : forall t, storage_write_ok (oracle w) t = false)
    by (intros t; reflexivity).
  pose proof (unlock_with_rejected_writes_says_incorrect_pin
                (platform := Fixture.platform) "123456" Scenario.stored_salt
                [Scenario.foo_snippet] pending w
                Hpin Hsalt Hdec Hpending Hnew Hrejected) as H.
  cbv zeta in H. destruct H as (Hkey & _ & Hkept & _).
  exact (conj Hpin (conj Hsalt (conj Hdec (conj Hpending (conj Hnew
           (conj Hrejected (conj Hkey Hkept))))))).
Defined.

Lemma escapeHtml_injective_witness :
  escapeHtml "a<b & c" = escapeHtml "a<b & c" /\ "a<b & c" = "a<b & c".
Proof.
  assert (H : escapeHtml "a<b & c" = escapeHtml "a<b & c") by reflexivity.
  exact (conj H (escapeHtml_injective "a<b & c" "a<b & c" H)).
Defined.

(** A text with all five characters. *)
Example escapeHtml_run :
  escapeHtml ("<a href='x'>Tom & Jerry</a>" ++ String double_quote "")
  = "&lt;a href=&#039;x&#039;&gt;Tom &amp; Jerry&lt;/a&gt;&quot;".
Proof. reflexivity. Qed.

(** The import of the backup file into the open vault with foo. *)
Example handleImport_run_on_backup :
  State.snippets
    (state (exec (handleImport (platform := Fixture.platform)
                    (Some Fixture.backup_text) true) Fixture.unlocked_foo))
  = [Scenario.foo_snippet;
     Snippet.mk "uuid-7" Snippet.text "bar" Snippet.null ["work"] 1600000000000].
Proof. vm_compute. reflexivity. Qed.
